(** * CrewAI translation crew: batch translation pipeline

    A shallow embedding of the Python sources

      - [utils.py]               ([TextCleaner], [DocumentAnalyzer]),
      - [translation_engine.py]  ([TranslationEngine], [BatchProcessor]),
      - [document_io.py]         ([DocumentReader], [DocumentWriter]),
      - [translation_system.py]  ([TranslationSystem]),
      - [config.py]              ([Config]),

    followed by the properties of the pipeline.

    Modelling conventions.

    - A Python [str] is a [string]; a character is a code point below 256,
      so [str.isspace], [str.lower] and the regular-expression classes
      [\d] and [\s] are the restrictions of the Unicode ones to Latin-1.
    - A Python [int] read from the configuration is a [Z]; positions and
      lengths are [nat].
    - The configuration [dict] is a [gmap string value].
    - A paragraph [dict] built by the reader has a fixed set of keys and is
      a record.
    - The language-model backend ([Crew.kickoff]) is an oracle: given the
      number of the batch being translated and the task handed to the crew,
      it either returns the raw response or raises.  Every call is recorded
      in a trace.  Building the agent, the task and the crew is taken to
      succeed once the target language is read.
    - Logging has no effect on the values computed and is left out.
      [time.sleep] is modelled by the exceptions it raises.
    - The docx library is modelled by what the program observes of it:
      the runs of a paragraph ([paragraph.runs]), their texts and
      attributes, the tables and the related parts.  The library refuses
      a text that holds a control character other than tab, line feed and
      carriage return (ValueError).  The functions that update a document
      give the document as it is when the library accepts every text it
      is handed, and [DocumentWriter.run] raises when it refuses one. *)

From Stdlib Require Import ZArith Ascii DecimalString Lia.
From stdpp Require Import base option list strings gmap.

Local Open Scope nat_scope.

(** ** Python strings *)

Module PyStr.

(** [c.isspace()] on the code points below 256. *)
Definition isspace (c : ascii) : bool :=
  let n := nat_of_ascii c in
  ((9 <=? n) && (n <=? 13)) || ((28 <=? n) && (n <=? 32))
  || (n =? 133) || (n =? 160).

(** The class [\d] on the code points below 256. *)
Definition isdigit (c : ascii) : bool :=
  let n := nat_of_ascii c in (48 <=? n) && (n <=? 57).

(** [c.lower()]: A-Z and the upper-case letters of Latin-1. *)
Definition lower_char (c : ascii) : ascii :=
  let n := nat_of_ascii c in
  if ((65 <=? n) && (n <=? 90))
     || ((192 <=? n) && (n <=? 222) && negb (n =? 215))
  then ascii_of_nat (n + 32) else c.

Fixpoint lower (s : string) : string :=
  match s with
  | EmptyString => EmptyString
  | String c s' => String (lower_char c) (lower s')
  end.

(** Truth value of a string in a condition: non-empty. *)
Definition truthy (s : string) : bool :=
  match s with EmptyString => false | String _ _ => true end.

Fixpoint lstrip (s : string) : string :=
  match s with
  | EmptyString => EmptyString
  | String c s' => if isspace c then lstrip s' else s
  end.

Fixpoint rstrip (s : string) : string :=
  match s with
  | EmptyString => EmptyString
  | String c s' =>
      match rstrip s' with
      | EmptyString => if isspace c then EmptyString else String c EmptyString
      | r => String c r
      end
  end.

(** [s.strip()] *)
Definition strip (s : string) : string := rstrip (lstrip s).

(** [s.split('\n')]: never empty, [''.split('\n') == ['']]. *)
Fixpoint split_lines (s : string) : list string :=
  match s with
  | EmptyString => [EmptyString]
  | String c s' =>
      if Ascii.eqb c "010" then EmptyString :: split_lines s'
      else match split_lines s' with
           | [] => [String c EmptyString]
           | l :: ls => String c l :: ls
           end
  end.

(** [sep.join(ls)] *)
Definition join (sep : string) (ls : list string) : string :=
  String.concat sep ls.

(** [s.startswith(p)] *)
Definition startswith (s p : string) : bool := String.prefix p s.

(** [needle in hay] *)
Fixpoint contains (needle hay : string) : bool :=
  String.prefix needle hay
  || match hay with
     | EmptyString => false
     | String _ hay' => contains needle hay'
     end.

(** [s[n:]] *)
Fixpoint slice_from (n : nat) (s : string) : string :=
  match n, s with
  | O, _ => s
  | S _, EmptyString => EmptyString
  | S n', String _ s' => slice_from n' s'
  end.

(** [str(n)] for a non-negative integer. *)
Definition str_of_nat (n : nat) : string :=
  NilEmpty.string_of_uint (Nat.to_uint n).

Definition newline : string := String "010" EmptyString.

(** The remainder of [s] after its longest prefix of digits. *)
Fixpoint skip_digits (s : string) : string :=
  match s with
  | String c s' => if isdigit c then skip_digits s' else s
  | EmptyString => EmptyString
  end.

(** What follows a match of [^\d+\.] at the start of [line], if any. *)
Definition after_marker (line : string) : option string :=
  match line with
  | String c s' =>
      if isdigit c then
        match skip_digits s' with
        | String "." rest => Some rest
        | _ => None
        end
      else None
  | EmptyString => None
  end.

(** [re.match(r'^\d+\.', line)] as a truth value. *)
Definition re_match_marker (line : string) : bool :=
  match after_marker line with Some _ => true | None => false end.

(** [re.sub(r'^\d+\.\s*', '', line)] *)
Definition re_sub_marker (line : string) : string :=
  match after_marker line with
  | Some rest => lstrip rest
  | None => line
  end.

End PyStr.

(** ** utils.py: TextCleaner *)

Module TextCleaner.
Import PyStr.

Definition PREFIXES_TO_REMOVE : list string :=
  [ "Translation:";
    "Here is the translation:";
    "The translation is:";
    "Translated text:";
    "Result:";
    "Output:";
    "Answer:";
    "Response:" ].

Definition METADATA_KEYWORDS : list string :=
  [ "used_tools="; "tools_errors="; "delegations="; "i18n=" ].

(** The loop over the prefixes, left at the first one that matches. *)
Fixpoint remove_prefix (prefixes : list string) (text : string) : string :=
  match prefixes with
  | [] => text
  | prefix :: rest =>
      if startswith (lower text) (lower prefix)
      then strip (slice_from (String.length prefix) text)
      else remove_prefix rest text
  end.

(** One turn of the loop over the lines: the lines kept so far, then
    the next line. *)
Definition clean_line (cleaned_lines : list string) (line0 : string)
  : list string :=
  let line := strip line0 in
  if existsb (fun keyword => contains keyword (lower line)) METADATA_KEYWORDS
  then cleaned_lines
  else if startswith line "[Translation of item" then cleaned_lines
  else if truthy line && negb (startswith line "#")
       then cleaned_lines ++ [line]
       else cleaned_lines.

Definition clean_translation_result (result_text : string) : string :=
  let text := strip result_text in
  let text := remove_prefix PREFIXES_TO_REMOVE text in
  let lines := split_lines text in
  let cleaned_lines := fold_left clean_line lines [] in
  strip (join newline cleaned_lines).

End TextCleaner.


(** ** Exceptions *)

Inductive exn : Type :=
| KeyError (key : string)
| TypeError
| ZeroDivisionError
| FileNotFoundError
| IOError
| ValueError
| OverflowError.

Inductive result (A : Type) : Type :=
| Ok (a : A)
| Raise (e : exn).

Arguments Ok {A} a.
Arguments Raise {A} e.

#[global] Instance result_ret : MRet result := fun A a => Ok a.
#[global] Instance result_bind : MBind result := fun A B f m =>
  match m with
  | Ok a => f a
  | Raise e => Raise e
  end.

(** ** config.py *)

(** The values a configuration file holds. *)
Inductive value : Type :=
| VStr (s : string)
| VInt (z : Z)
| VBool (b : bool).

Module Config.

Definition DEFAULT_CONFIG : gmap string value :=
  list_to_map
    [ ("target_language", VStr "Hindi");
      ("batch_size", VInt 2);
      ("input_doc", VStr "input.docx");
      ("output_doc", VStr "translated_paper.docx");
      ("llm_model", VStr "ollama/mistral:7b");
      ("verbose", VBool false);
      ("translation_quality", VStr "high") ].

(** [load_config]: [file] is the dictionary read from the configuration
    file, [None] when the file does not exist. *)
Definition load_config (file : option (gmap string value))
  : gmap string value :=
  match file with
  | Some config => config
  | None => DEFAULT_CONFIG
  end.

(** [config.get(key, default)] *)
Definition get (config : gmap string value) (key : string) (dflt : value)
  : value :=
  default dflt (config !! key).

(** [config[key]] *)
Definition getitem (config : gmap string value) (key : string)
  : result value :=
  match config !! key with
  | Some v => Ok v
  | None => Raise (KeyError key)
  end.

(** [str(v)], as an f-string formats a value. *)
Definition str_of_value (v : value) : string :=
  match v with
  | VStr s => s
  | VInt z => NilEmpty.string_of_int (Z.to_int z)
  | VBool true => "True"
  | VBool false => "False"
  end.

(** A value used as an integer; [bool] is a subclass of [int]. *)
Definition int_of_value (v : value) : result Z :=
  match v with
  | VInt z => Ok z
  | VBool b => Ok (Z.b2z b)
  | VStr _ => Raise TypeError
  end.

End Config.

(** ** The paragraph dictionary

    The [structure] built by [analyze_paragraph_structure];
    [index] is [None] until the reader sets the key. *)

Record Paragraph : Type := {
  text : string;
  is_bold : bool;
  is_italic : bool;
  alignment : option nat;
  style_name : string;
  has_numbering : bool;
  indent_level : nat;
  has_image : bool;
  image_data : option string;
  index : option nat
}.

(** [new_para = p.copy(); new_para['text'] = t] *)
Definition with_text (p : Paragraph) (t : string) : Paragraph :=
  {| text := t;
     is_bold := is_bold p;
     is_italic := is_italic p;
     alignment := alignment p;
     style_name := style_name p;
     has_numbering := has_numbering p;
     indent_level := indent_level p;
     has_image := has_image p;
     image_data := image_data p;
     index := index p |}.

(** [structure['index'] = i] *)
Definition with_index (p : Paragraph) (i : nat) : Paragraph :=
  {| text := text p;
     is_bold := is_bold p;
     is_italic := is_italic p;
     alignment := alignment p;
     style_name := style_name p;
     has_numbering := has_numbering p;
     indent_level := indent_level p;
     has_image := has_image p;
     image_data := image_data p;
     index := Some i |}.

(** ** translation_engine.py *)

(** The task handed to the crew. *)
Record Task : Type := {
  description : string;
  expected_output : string
}.

(** The backend: the batch being translated and the task; [None] when
    [crew.kickoff()] raises. *)
Definition Backend : Type := nat -> Task -> option string.

Module TranslationEngine.
Import PyStr TextCleaner.

Section Engine.
Variable config : gmap string value.
Variable backend : Backend.

Definition indent12 : string := "            ".

Definition _create_translation_task (batch_text : string) : result Task :=
  target_language ← Config.getitem config "target_language";
  let lang := Config.str_of_value target_language in
  mret
    {| description :=
         join ""
           [ newline;
             indent12; "Translate the following English text to "; lang; ":"; newline;
             newline;
             indent12; batch_text; newline;
             newline;
             indent12; "Requirements:"; newline;
             indent12; "- Translate each numbered paragraph separately"; newline;
             indent12; "- Output format: Return each translation on separate lines, maintaining the same numbering"; newline;
             indent12; "- Only provide the "; lang; " translation"; newline;
             indent12; "- Do not add any English text, comments, or explanations"; newline;
             indent12 ];
       expected_output :=
         "Numbered list of paragraphs translated to " +:+ lang |}.

(** The loop that numbers the texts: [i] is the counter of
    [enumerate(batch_texts, 1)]. *)
Fixpoint number_texts (i : nat) (batch_texts : list string) : list string :=
  match batch_texts with
  | [] => []
  | text :: rest =>
      if truthy (strip text)
      then (str_of_nat i +:+ ". " +:+ text) :: number_texts (S i) rest
      else number_texts (S i) rest
  end.

(** The loop of [_align_translations_with_inputs]. *)
Fixpoint align_from (translated_texts : list string) (translated_index : nat)
    (batch_texts : list string) : list string :=
  match batch_texts with
  | [] => []
  | original_text :: rest =>
      if truthy (strip original_text) then
        match translated_texts !! translated_index with
        | Some translated =>
            translated :: align_from translated_texts (S translated_index) rest
        | None =>
            original_text :: align_from translated_texts translated_index rest
        end
      else original_text :: align_from translated_texts translated_index rest
  end.

Definition _align_translations_with_inputs
    (translated_texts batch_texts : list string) : list string :=
  align_from translated_texts 0 batch_texts.

(** One turn of the loop over the lines of the cleaned result; the
    state is [(translated_texts, current_text)]. *)
Definition parse_line (st : list string * string) (line0 : string)
  : list string * string :=
  let '(translated_texts, current_text) := st in
  let line := strip line0 in
  if re_match_marker line then
    ( (if truthy current_text
       then translated_texts ++ [strip current_text]
       else translated_texts),
      re_sub_marker line )
  else if truthy current_text then
    ( translated_texts,
      if truthy line then current_text +:+ " " +:+ line else current_text )
  else st.

(** The loop over the lines, then the item still open. *)
Definition parse_lines (lines : list string) : list string :=
  let '(translated_texts, current_text) :=
    fold_left parse_line lines ([], EmptyString) in
  if truthy current_text
  then translated_texts ++ [strip current_text]
  else translated_texts.

(** The numbered items of a cleaned result. *)
Definition parse_items (cleaned_result : string) : list string :=
  parse_lines (split_lines cleaned_result).

Definition _parse_translation_result (result : string)
    (batch_texts : list string) : list string :=
  let cleaned_result := clean_translation_result result in
  _align_translations_with_inputs (parse_items cleaned_result) batch_texts.

(** [translate_batch] returns the texts and the tasks it sent to the
    backend. *)
Definition translate_batch (batch_texts : list string) (batch_index : nat)
  : result (list string * list Task) :=
  let numbered_texts := number_texts 1 batch_texts in
  match numbered_texts with
  | [] => mret (batch_texts, [])
  | _ :: _ =>
      let batch_text := join (newline +:+ newline) numbered_texts in
      translate_task ← _create_translation_task batch_text;
      match backend batch_index translate_task with
      | Some result =>
          mret (_parse_translation_result result batch_texts, [translate_task])
      | None => mret (batch_texts, [translate_task])
      end
  end.

(** [TranslationEngine(config)]: the agent factory reads
    [config['target_language']]. *)
Definition init : result unit :=
  _ ← Config.getitem config "target_language"; mret tt.

End Engine.
End TranslationEngine.

Module BatchProcessor.
Import TranslationEngine.

Section Processor.
Variable config : gmap string value.
Variable backend : Backend.

(** The loop over [enumerate(translated_texts)]: [j] is the counter. *)
Fixpoint update_from (batch : list Paragraph) (j : nat)
    (translated_texts : list string) : list Paragraph :=
  match translated_texts with
  | [] => []
  | translated_text :: rest =>
      match batch !! j with
      | Some p => with_text p translated_text :: update_from batch (S j) rest
      | None => update_from batch (S j) rest
      end
  end.

(** [range(0, n, step)] for a positive [step]. *)
Definition range_starts (n step : nat) : list nat :=
  map (fun k => k * step) (seq 0 ((n + step - 1) / step)).

(** [time.sleep(v)]: a number of seconds that is negative raises
    ValueError, one that does not fit the clock (64 bits of nanoseconds)
    raises OverflowError, and a value that is no number raises TypeError;
    [bool] is a subclass of [int]. *)
Definition sleep (v : value) : result unit :=
  match v with
  | VInt z =>
      if ((z <? -9223372036) || (9223372036 <? z))%Z then Raise OverflowError
      else if (z <? 0)%Z then Raise ValueError
      else Ok tt
  | VBool _ => Ok tt
  | VStr _ => Raise TypeError
  end.

(** The loop over the batches; the state is the list built so far and
    the tasks sent so far.  Each turn ends with
    [time.sleep(self.config.get('batch_delay', 1))]. *)
Fixpoint batches_loop (batch_size : nat) (paragraphs : list Paragraph)
    (starts : list nat) (translated_paragraphs : list Paragraph)
    (calls : list Task) : result (list Paragraph * list Task) :=
  match starts with
  | [] => mret (translated_paragraphs, calls)
  | i :: rest =>
      let batch := take batch_size (drop i paragraphs) in
      let batch_texts := map text batch in
      let batch_index := i / batch_size in
      '(translated_texts, sent) ←
        translate_batch config backend batch_texts batch_index;
      _ ← sleep (Config.get config "batch_delay" (VInt 1));
      batches_loop batch_size paragraphs rest
        (translated_paragraphs ++ update_from batch 0 translated_texts)
        (calls ++ sent)
  end.

(** [process_paragraphs] returns the paragraphs and the tasks sent to
    the backend.  A batch size of zero raises in the division, a
    negative one makes the range empty. *)
Definition process_paragraphs (paragraphs : list Paragraph)
  : result (list Paragraph * list Task) :=
  batch_size ← Config.int_of_value (Config.get config "batch_size" (VInt 3));
  if (batch_size =? 0)%Z then Raise ZeroDivisionError
  else if (batch_size <? 0)%Z then mret ([], [])
  else
    batches_loop (Z.to_nat batch_size) paragraphs
      (range_starts (length paragraphs) (Z.to_nat batch_size)) [] [].

End Processor.
End BatchProcessor.

(** ** The document, as the docx library presents it *)

(** A run: its text, its bold and italic attributes (three-valued), whether
    [xpath('.//pic:pic')] finds a picture in it, and the [r:embed]
    attribute of each [a:blip] in it, in document order. *)
Record Run : Type := {
  run_text : string;
  bold : option bool;
  italic : option bool;
  has_pic : bool;
  blip_embeds : list (option string)
}.

Record DocxParagraph : Type := {
  runs : list Run;
  par_alignment : option nat;
  par_style : option string
}.

(** A related part of the document. *)
Record Part : Type := {
  content_type : string;
  blob : string
}.

Record Document : Type := {
  doc_paragraphs : list DocxParagraph;
  doc_tables : list (list (list string));
  related_parts : list (string * Part)
}.

Module Docx.

(** [paragraph.text], for a paragraph all of whose text lies in its
    runs. *)
Definition paragraph_text (p : DocxParagraph) : string :=
  PyStr.join "" (map run_text (runs p)).

(** The characters the library takes in a text: every code point from 32
    on, tab, line feed and carriage return. *)
Definition accepts_char (c : ascii) : bool :=
  let n := nat_of_ascii c in
  (32 <=? n) || (n =? 9) || (n =? 10) || (n =? 13).

(** Whether [run.text = t], [add_run(t)] and [cell.text = t] take [t];
    they raise ValueError otherwise. *)
Fixpoint accepts (t : string) : bool :=
  match t with
  | EmptyString => true
  | String c t' => accepts_char c && accepts t'
  end.

(** The text read back from a run after [run.text = t]: a carriage
    return has become a line break. *)
Fixpoint stored_text (t : string) : string :=
  match t with
  | EmptyString => EmptyString
  | String c t' =>
      String (if Ascii.eqb c "013" then "010"%char else c) (stored_text t')
  end.

(** [run.text = t], when the library accepts [t]: the content of the run
    is replaced, its properties stay. *)
Definition set_text (r : Run) (t : string) : Run :=
  {| run_text := stored_text t;
     bold := bold r;
     italic := italic r;
     has_pic := false;
     blip_embeds := [] |}.

(** The run [paragraph.add_run(t)] appends, when the library accepts
    [t]. *)
Definition new_run (t : string) : Run :=
  {| run_text := stored_text t;
     bold := None;
     italic := None;
     has_pic := false;
     blip_embeds := [] |}.

Definition add_run (p : DocxParagraph) (t : string) : DocxParagraph :=
  {| runs := runs p ++ [new_run t];
     par_alignment := par_alignment p;
     par_style := par_style p |}.

Definition with_runs (p : DocxParagraph) (rs : list Run) : DocxParagraph :=
  {| runs := rs;
     par_alignment := par_alignment p;
     par_style := par_style p |}.

End Docx.

(** ** utils.py: DocumentAnalyzer *)

Record ImageInfo : Type := {
  data : string;
  image_content_type : string;
  filename : string
}.

Record TableSnapshot : Type := {
  table_index : nat;
  table_data : list (list string);
  table_rows : nat;
  table_cols : nat
}.

Module DocumentAnalyzer.
Import PyStr.

(** The loop over the blips of a run, left at the first identifier
    that is set and not empty. *)
Fixpoint first_embed (embeds : list (option string)) : option string :=
  match embeds with
  | [] => None
  | Some image_id :: rest =>
      if truthy image_id then Some image_id else first_embed rest
  | None :: rest => first_embed rest
  end.

(** One turn of the loop over the runs. *)
Definition analyze_run (structure : Paragraph) (run : Run) : Paragraph :=
  {| text := text structure;
     is_bold :=
       match bold run with Some true => true | _ => is_bold structure end;
     is_italic :=
       match italic run with Some true => true | _ => is_italic structure end;
     alignment := alignment structure;
     style_name := style_name structure;
     has_numbering := has_numbering structure;
     indent_level := indent_level structure;
     has_image := if has_pic run then true else has_image structure;
     image_data :=
       if has_pic run then
         match first_embed (blip_embeds run) with
         | Some image_id => Some image_id
         | None => image_data structure
         end
       else image_data structure;
     index := index structure |}.

Definition analyze_paragraph_structure (paragraph : DocxParagraph)
  : Paragraph :=
  let structure :=
    {| text := Docx.paragraph_text paragraph;
       is_bold := false;
       is_italic := false;
       alignment := par_alignment paragraph;
       style_name := default "Normal" (par_style paragraph);
       has_numbering := false;
       indent_level := 0;
       has_image := false;
       image_data := None;
       index := None |} in
  fold_left analyze_run (runs paragraph) structure.

(** [s.split('/')[-1]] *)
Fixpoint after_last_slash (s : string) : string :=
  match s with
  | EmptyString => EmptyString
  | String c s' =>
      if Ascii.eqb c "/" || contains "/" s' then after_last_slash s' else s
  end.

(** The loop over the related parts; the state is [(images, image_count)]. *)
Definition extract_image (st : gmap string ImageInfo * nat)
    (item : string * Part) : gmap string ImageInfo * nat :=
  let '(images, image_count) := st in
  let '(rel_id, related_part) := item in
  if contains "image" (content_type related_part) then
    ( <[ rel_id :=
           {| data := blob related_part;
              image_content_type := content_type related_part;
              filename :=
                "image_" +:+ str_of_nat image_count +:+ "."
                +:+ after_last_slash (content_type related_part) |} ]> images,
      S image_count )
  else st.

Definition extract_images_from_document (doc : Document)
  : gmap string ImageInfo :=
  fst (fold_left extract_image (related_parts doc) (∅, 0)).

Definition extract_tables_from_document (doc : Document)
  : list TableSnapshot :=
  imap (fun i table =>
          {| table_index := i;
             table_data := table;
             table_rows := length table;
             table_cols := match table with
                           | [] => 0
                           | row :: _ => length row
                           end |})
       (doc_tables doc).

End DocumentAnalyzer.

(** ** document_io.py *)

Record Metadata : Type := {
  meta_total_paragraphs : nat;
  meta_total_tables : nat;
  meta_total_images : nat;
  meta_has_footnotes : bool
}.

(** The [content] dictionary of the reader, and the [translated_content]
    handed to the writer. *)
Record Content : Type := {
  paragraphs : list Paragraph;
  tables : list TableSnapshot;
  images : gmap string ImageInfo;
  metadata : Metadata
}.

Module DocumentReader.
Import PyStr DocumentAnalyzer.

(** The loop over [enumerate(doc.paragraphs)]: [i] is the counter. *)
Fixpoint read_paragraphs (i : nat) (ps : list DocxParagraph)
  : list Paragraph :=
  match ps with
  | [] => []
  | paragraph :: rest =>
      let structure := with_index (analyze_paragraph_structure paragraph) i in
      if truthy (strip (Docx.paragraph_text paragraph)) || has_image structure
      then structure :: read_paragraphs (S i) rest
      else read_paragraphs (S i) rest
  end.

(** [_run], once the document is open. *)
Definition read (doc : Document) : Content :=
  let imgs := extract_images_from_document doc in
  let paras := read_paragraphs 0 (doc_paragraphs doc) in
  {| paragraphs := paras;
     tables := extract_tables_from_document doc;
     images := imgs;
     metadata :=
       {| meta_total_paragraphs := length paras;
          meta_total_tables := length (doc_tables doc);
          meta_total_images := size imgs;
          meta_has_footnotes := false |} |}.

End DocumentReader.

Module DocumentWriter.
Import PyStr.

(** [run.text = t] on the first run without a picture; [None] when every
    run carries one. *)
Fixpoint set_first_text_run (rs : list Run) (t : string)
  : option (list Run) :=
  match rs with
  | [] => None
  | run :: rest =>
      if has_pic run then cons run <$> set_first_text_run rest t
      else Some (Docx.set_text run t :: rest)
  end.

Definition _update_paragraph_text (paragraph : DocxParagraph)
    (trans_para : Paragraph) : DocxParagraph :=
  if truthy (strip (text trans_para)) && negb (has_image trans_para) then
    let cleared :=
      map (fun run => if has_pic run then run else Docx.set_text run "")
          (runs paragraph) in
    match cleared with
    | _ :: _ =>
        match set_first_text_run cleared (text trans_para) with
        | Some rs => Docx.with_runs paragraph rs
        | None =>
            Docx.add_run (Docx.with_runs paragraph cleared) (text trans_para)
        end
    | [] => Docx.add_run (Docx.with_runs paragraph cleared) (text trans_para)
    end
  else if truthy (strip (text trans_para)) && has_image trans_para then
    match set_first_text_run (runs paragraph) (text trans_para) with
    | Some rs => Docx.with_runs paragraph rs
    | None => Docx.add_run paragraph (" " +:+ text trans_para)
    end
  else paragraph.

(** The dictionary [{p.get('index', i): p for i, p in enumerate(...)}]:
    a later paragraph replaces an earlier one with the same key. *)
Fixpoint index_paragraphs (i : nat) (ps : list Paragraph)
    (m : gmap nat Paragraph) : gmap nat Paragraph :=
  match ps with
  | [] => m
  | p :: rest => index_paragraphs (S i) rest (<[ default i (index p) := p ]> m)
  end.

Definition _update_original_document (translated_content : Content)
    (doc : Document) : Document :=
  let translated_paragraphs :=
    index_paragraphs 0 (paragraphs translated_content) ∅ in
  {| doc_paragraphs :=
       imap (fun i paragraph =>
               match translated_paragraphs !! i with
               | Some trans_para => _update_paragraph_text paragraph trans_para
               | None => paragraph
               end)
            (doc_paragraphs doc);
     doc_tables := doc_tables doc;
     related_parts := related_parts doc |}.

(** Whether the library refuses the text [_update_paragraph_text] and
    [_create_new_document] hand it for a unit: the text of the unit is
    handed over, in every branch, when it is not blank. *)
Definition refused (trans_para : Paragraph) : bool :=
  truthy (strip (text trans_para)) && negb (Docx.accepts (text trans_para)).

(** Whether [_update_original_document] meets a text the library
    refuses. *)
Definition update_refused (translated_content : Content) (doc : Document)
  : bool :=
  let translated_paragraphs :=
    index_paragraphs 0 (paragraphs translated_content) ∅ in
  existsb (fun i =>
             match translated_paragraphs !! i with
             | Some trans_para => refused trans_para
             | None => false
             end)
          (seq 0 (length (doc_paragraphs doc))).

(** The paragraph [_create_new_document] adds for [para_data]. *)
Definition new_paragraph (para_data : Paragraph) : DocxParagraph :=
  {| runs :=
       if truthy (strip (text para_data)) then
         [ {| run_text := Docx.stored_text (text para_data);
              bold := if is_bold para_data then Some true else None;
              italic := if is_italic para_data then Some true else None;
              has_pic := false;
              blip_embeds := [] |} ]
       else [];
     par_alignment :=
       match alignment para_data with
       | Some (S a) => Some (S a)
       | _ => None
       end;
     par_style := None |}.

(** The table [_create_new_document] adds for [table_data]: [rows] by
    [cols] cells, filled from the data where it has a text. *)
Definition new_table (t : TableSnapshot) : list (list string) :=
  map (fun row_idx =>
         map (fun col_idx =>
                default EmptyString
                  (table_data t !! row_idx ≫= fun row_data => row_data !! col_idx))
             (seq 0 (table_cols t)))
      (seq 0 (table_rows t)).

(** [Document()] starts from the template of the library, which has no
    paragraph, no table and no image; its other parts are left out. *)
Definition _create_new_document (translated_content : Content) : Document :=
  {| doc_paragraphs := map new_paragraph (paragraphs translated_content);
     doc_tables :=
       map new_table
           (filter (fun t => table_data t <> []) (tables translated_content));
     related_parts := [] |}.

(** Whether [_create_new_document] meets a text the library refuses, in
    a unit or in a cell of a table. *)
Definition create_refused (translated_content : Content) : bool :=
  existsb refused (paragraphs translated_content)
  || existsb (existsb (existsb (fun cell_text => negb (Docx.accepts cell_text))))
       (map new_table
          (filter (fun t => table_data t <> []) (tables translated_content))).

(** [_run]: [original] is the document at [original_doc_path], [None]
    when no path is given or nothing exists there; [save] is
    [doc.save]. *)
Definition run (save : Document -> value -> result unit)
    (translated_content : Content) (output_path : value)
    (original : option Document) : result Document :=
  doc ← match original with
        | Some orig =>
            if update_refused translated_content orig then Raise ValueError
            else Ok (_update_original_document translated_content orig)
        | None =>
            if create_refused translated_content then Raise ValueError
            else Ok (_create_new_document translated_content)
        end;
  _ ← save doc output_path;
  mret doc.

End DocumentWriter.

(** ** translation_system.py *)

Record Summary : Type := {
  status : string;
  output_file : value;
  paragraphs_translated : nat;
  tables_translated : nat;
  images_preserved : nat;
  total_paragraphs : nat;
  target_language : value
}.

(** What lies outside the program: opening the input document (after
    the search for its path), opening the original for the writer, and
    saving. *)
Record World : Type := {
  open_input : value -> result Document;
  open_original : value -> option Document;
  save_document : Document -> value -> result unit
}.

(** What a run leaves behind: the summary it returns, the content it
    handed to the writer, the document it saved and the tasks it sent to
    the backend. *)
Record Outcome : Type := {
  summary : Summary;
  handed_to_writer : Content;
  saved : Document;
  calls : list Task
}.

Module TranslationSystem.

Section System.
Variable world : World.
Variable config : gmap string value.
Variable backend : Backend.

(** [TranslationSystem(config)] *)
Definition init : result unit := TranslationEngine.init config.

Definition _read_document : result Content :=
  input_doc ← Config.getitem config "input_doc";
  doc ← open_input world input_doc;
  mret (DocumentReader.read doc).

Definition _translate_paragraphs (ps : list Paragraph)
  : result (list Paragraph * list Task) :=
  BatchProcessor.process_paragraphs config backend ps.

Definition _translate_tables (ts : list TableSnapshot)
  : list TableSnapshot :=
  filter (fun t => table_data t <> []) ts.

Definition _create_translated_content
    (translated_paragraphs : list Paragraph)
    (translated_tables : list TableSnapshot) (doc_content : Content)
  : Content :=
  {| paragraphs := translated_paragraphs;
     tables := translated_tables;
     images := images doc_content;
     metadata := metadata doc_content |}.

Definition _write_document (translated_content : Content)
  : result Document :=
  output_doc ← Config.getitem config "output_doc";
  input_doc ← Config.getitem config "input_doc";
  DocumentWriter.run (save_document world) translated_content
    output_doc (open_original world input_doc).

Definition _create_result_summary
    (translated_paragraphs : list Paragraph)
    (translated_tables : list TableSnapshot) (doc_content : Content)
  : result Summary :=
  output_doc ← Config.getitem config "output_doc";
  lang ← Config.getitem config "target_language";
  mret
    {| status := "completed";
       output_file := output_doc;
       paragraphs_translated := length translated_paragraphs;
       tables_translated := length translated_tables;
       images_preserved := size (images doc_content);
       total_paragraphs := length (paragraphs doc_content);
       target_language := lang |}.

Definition run_translation : result Outcome :=
  _ ← Config.getitem config "target_language";
  doc_content ← _read_document;
  '(translated_paragraphs, sent) ←
    _translate_paragraphs (paragraphs doc_content);
  let translated_tables := _translate_tables (tables doc_content) in
  let translated_content :=
    _create_translated_content translated_paragraphs translated_tables
      doc_content in
  written ← _write_document translated_content;
  result ← _create_result_summary translated_paragraphs translated_tables
             doc_content;
  mret
    {| summary := result;
       handed_to_writer := translated_content;
       saved := written;
       calls := sent |}.

End System.
End TranslationSystem.


(** ** Paths and the search for the input file *)

(** What the program asks of the file system: [Path(s)], [str(p)],
    [Path.cwd() / s], [Path.home() / "Desktop" / s] and [p.exists()]. *)
Record FileSystem : Type := {
  path : Type;
  Path : string -> path;
  path_str : path -> string;
  cwd_join : string -> path;
  desktop_join : string -> path;
  path_exists : path -> bool
}.

Module PathResolver.

Definition possible_paths (fs : FileSystem) (file_path : string)
  : list (path fs) :=
  [ Path fs file_path;
    cwd_join fs file_path;
    cwd_join fs "input.docx";
    desktop_join fs file_path;
    desktop_join fs "input.docx" ].

Definition resolve_file_path (fs : FileSystem) (file_path : string)
  : result (path fs) :=
  let p0 := Path fs file_path in
  if path_exists fs p0 then Ok p0
  else
    match List.find (path_exists fs) (possible_paths fs file_path) with
    | Some p => Ok p
    | None => Raise FileNotFoundError
    end.

End PathResolver.

Module ConfigFile.

(** The locations [validate_input_file] tries after the configured one. *)
Definition possible_locations (fs : FileSystem) (input_doc : string)
  : list (path fs) :=
  [ cwd_join fs "input.docx";
    desktop_join fs "input.docx";
    cwd_join fs input_doc ].

(** [Config.validate_input_file]: the answer and the configuration, whose
    [input_doc] is set to the location found. *)
Definition validate_input_file (fs : FileSystem) (config : gmap string value)
  : result (bool * gmap string value) :=
  input_doc ← Config.getitem config "input_doc";
  match input_doc with
  | VStr s =>
      if path_exists fs (Path fs s) then mret (true, config)
      else
        match List.find (path_exists fs) (possible_locations fs s) with
        | Some location =>
            mret (true, <[ "input_doc" := VStr (path_str fs location) ]> config)
        | None => mret (false, config)
        end
  | _ => Raise TypeError
  end.

End ConfigFile.

(** * Notions used in the statements *)

Import PyStr TextCleaner TranslationEngine.

(** A text that is sent for translation: not empty once trimmed. *)
Definition nonblank (t : string) : bool := truthy (strip t).

(** How many texts of [l] are sent for translation. *)
Definition count_nonblank (l : list string) : nat :=
  length (List.filter nonblank l).

(** What the alignment puts at a position whose original is [original],
    when [k] non-blank originals precede it. *)
Definition aligned_text (items : list string) (k : nat) (original : string)
  : string :=
  if nonblank original then default original (items !! k) else original.

(** One entry of the prompt: the position in the batch, counted from one,
    a period, a space, the text. *)
Definition numbered_entry (it : nat * string) : string :=
  str_of_nat it.1 +:+ ". " +:+ it.2.

(** The entries of the prompt: the non-blank texts of the batch, each
    with its position. *)
Definition prompt_entries (batch_texts : list string) : list string :=
  map numbered_entry
    (List.filter (fun it : nat * string => nonblank it.2)
       (zip (seq 1 (length batch_texts)) batch_texts)).

(** The body of the prompt: the entries, a blank line between two. *)
Definition prompt_body (batch_texts : list string) : string :=
  join (newline +:+ newline) (prompt_entries batch_texts).

Import BatchProcessor.

(** The batch number [k] of [ps]: the slice [ps[k*bs : k*bs+bs]]. *)
Definition batch_at (bs : nat) (ps : list Paragraph) (k : nat)
  : list Paragraph :=
  take bs (drop (k * bs) ps).

(** The texts [translate_batch] returns for batch [k]. *)
Definition batch_result (config : gmap string value) (backend : Backend)
    (bs : nat) (ps : list Paragraph) (k : nat) : list string :=
  match translate_batch config backend (map text (batch_at bs ps k)) k with
  | Ok (translated_texts, _) => translated_texts
  | Raise _ => []
  end.

(** The tasks [translate_batch] sends for batch [k]. *)
Definition batch_calls (config : gmap string value) (backend : Backend)
    (bs : nat) (ps : list Paragraph) (k : nat) : list Task :=
  match translate_batch config backend (map text (batch_at bs ps k)) k with
  | Ok (_, sent) => sent
  | Raise _ => []
  end.

(** The units batch [k] contributes to the result. *)
Definition batch_units (config : gmap string value) (backend : Backend)
    (bs : nat) (ps : list Paragraph) (k : nat) : list Paragraph :=
  zip_with with_text (batch_at bs ps k) (batch_result config backend bs ps k).

(** Two units that differ in their text at most. *)
Definition same_but_text (p q : Paragraph) : Prop := q = with_text p (text q).

(** The batch size the processor reads from the configuration. *)
Definition configured_batch_size (config : gmap string value) : result Z :=
  Config.int_of_value (Config.get config "batch_size" (VInt 3)).

(** The delay between two batches is one [time.sleep] accepts: it is
    absent from the configuration, or a number of seconds that is not
    negative and fits the clock. *)
Definition delay_accepted (config : gmap string value) : Prop :=
  sleep (Config.get config "batch_delay" (VInt 1)) = Ok tt.

(** A paragraph of plain text, as the reader builds it at position [i]. *)
Definition plain_paragraph (i : nat) (t : string) : Paragraph :=
  {| text := t;
     is_bold := false;
     is_italic := false;
     alignment := None;
     style_name := "Normal";
     has_numbering := false;
     indent_level := 0;
     has_image := false;
     image_data := None;
     index := Some i |}.

(** A backend that raises on every call. *)
Definition failing_backend : Backend := fun _ _ => None.

(** A configuration file that sets everything but the batch size. *)
Definition config_without_batch_size : gmap string value :=
  delete "batch_size" Config.DEFAULT_CONFIG.

(** A run of plain text. *)
Definition text_run (t : string) : Run :=
  {| run_text := t; bold := None; italic := None;
     has_pic := false; blip_embeds := [] |}.

(** A run that holds one picture, embedded under [image_id]. *)
Definition picture_run (image_id : string) : Run :=
  {| run_text := EmptyString; bold := None; italic := None;
     has_pic := true; blip_embeds := [Some image_id] |}.

Definition paragraph_of (rs : list Run) : DocxParagraph :=
  {| runs := rs; par_alignment := None; par_style := None |}.

(** A document of two paragraphs of text and one picture. *)
Definition sample_document : Document :=
  {| doc_paragraphs :=
       [ paragraph_of [text_run "Hello world."];
         paragraph_of [picture_run "rId7"];
         paragraph_of [text_run "Good morning."] ];
     doc_tables := [];
     related_parts :=
       [ ("rId7", {| content_type := "image/png"; blob := "PNG" |}) ] |}.

(** A world in which [sample_document] is found, opened and saved. *)
Definition sample_world : World :=
  {| open_input := fun _ => Ok sample_document;
     open_original := fun _ => Some sample_document;
     save_document := fun _ _ => Ok tt |}.

Import DocumentAnalyzer DocumentWriter.

(** The identifier a run contributes to [image_data]: for a run with a
    picture, the first embed identifier in it. *)
Definition run_image_id (r : Run) : option string :=
  if has_pic r then first_embed (blip_embeds r) else None.

(** The identifiers of the embedded images of a paragraph, in the order
    in which the runs are visited. *)
Definition image_ids (p : DocxParagraph) : list string :=
  omap run_image_id (runs p).

(** The identifier of the first embedded image met in the paragraph. *)
Definition first_image_id (p : DocxParagraph) : option string :=
  head (image_ids p).

(** A paragraph with a picture in each of two runs. *)
Definition two_pictures : DocxParagraph :=
  paragraph_of [picture_run "rId1"; picture_run "rId2"].

(** The runs [rs'] keep every run of [rs] that holds a picture, as it is
    and where it is, and hold no other run with a picture. *)
Definition keeps_pictures (rs rs' : list Run) : Prop :=
  (forall (i : nat) (run : Run),
     rs !! i = Some run -> has_pic run = true -> rs' !! i = Some run)
  /\ List.filter has_pic rs' = List.filter has_pic rs.

(** The items of a cleaned response as the specification describes them.
    The state is the items closed so far and the item being built, if
    any.  A line that begins with an integer and a period closes the item
    being built and opens a new one, whose text is the line without the
    marker and the blanks after it; any other line that is not empty is
    joined, after a space, to the item being built.  The number written in
    a marker is never read. *)
Definition spec_line (st : list string * option string) (line0 : string)
  : list string * option string :=
  let '(closed, current) := st in
  let line := strip line0 in
  match after_marker line with
  | Some rest => (closed ++ option_list current, Some (lstrip rest))
  | None =>
      match current with
      | Some item =>
          (closed, Some (if truthy line then item +:+ " " +:+ line else item))
      | None => st
      end
  end.

Definition spec_items (cleaned : string) : list string :=
  let '(closed, current) :=
    fold_left spec_line (split_lines cleaned) ([], None) in
  closed ++ option_list current.

(** A marker line has a text after its marker; any other line passes. *)
Definition marker_has_text (line0 : string) : bool :=
  match after_marker (strip line0) with
  | Some rest => truthy (lstrip rest)
  | None => true
  end.

(** Two lines that differ in the number of their marker at most. *)
Definition same_but_number (a b : string) : Prop :=
  match after_marker (strip a), after_marker (strip b) with
  | Some x, Some y => lstrip x = lstrip y
  | None, None => strip a = strip b
  | _, _ => False
  end.

(** A string that does not begin with a blank. *)
Definition head_ok (s : string) : Prop :=
  match s with
  | EmptyString => True
  | String c _ => isspace c = false
  end.

(** The item being built in the code and in the specification. *)
Definition same_state (st : list string * string)
    (st' : list string * option string) : Prop :=
  st.1 = st'.1
  /\ match st'.2 with
     | None => st.2 = EmptyString
     | Some item =>
         st.2 = item /\ truthy item = true /\ head_ok item /\ rstrip item = item
     end.

(** A response whose first item has its text on the line after its
    marker. *)
Definition text_below_marker : string :=
  "1." +:+ newline +:+ "Bonjour" +:+ newline +:+ "2. Salut".

(** * Further notions used in the statements *)

(** A line that opens an item: it begins, once trimmed, with an integer
    and a period. *)
Definition is_marker_line (line0 : string) : bool :=
  re_match_marker (strip line0).

(** A string that is not empty and has no blank at either end. *)
Definition trimmed_nonempty (s : string) : Prop :=
  truthy s = true /\ strip s = s.

(** The open item counts as one item. *)
Definition open_items (current_text : string) : nat :=
  if truthy current_text then 1 else 0.

(** The number of batches [range(0, n, bs)] makes. *)
Definition batch_count (n bs : nat) : nat := (n + bs - 1) / bs.

(** Batch [k] has a text to translate. *)
Definition batch_has_text (bs : nat) (ps : list Paragraph) (k : nat) : bool :=
  negb (count_nonblank (map text (batch_at bs ps k)) =? 0).

(** A configuration whose batch size is negative. *)
Definition config_negative_batch_size : gmap string value :=
  <[ "batch_size" := VInt (-1) ]> Config.DEFAULT_CONFIG.

(** A run that is explicitly bold, or explicitly italic. *)
Definition run_is_bold (r : Run) : bool :=
  match bold r with Some true => true | _ => false end.

Definition run_is_italic (r : Run) : bool :=
  match italic r with Some true => true | _ => false end.

(** A related part whose content type names an image. *)
Definition is_image_part (item : string * Part) : bool :=
  contains "image" (content_type item.2).

(** The image parts of a document, in the order of its related parts. *)
Definition image_parts (doc : Document) : list (string * Part) :=
  List.filter is_image_part (related_parts doc).

(** The catalog entry of the image part number [k]. *)
Definition image_entry (k : nat) (part : Part) : ImageInfo :=
  {| data := blob part;
     image_content_type := content_type part;
     filename :=
       "image_" +:+ str_of_nat k +:+ "."
       +:+ after_last_slash (content_type part) |}.

(** A document with a picture part, a style part and a second picture
    part. *)
Definition document_with_parts : Document :=
  {| doc_paragraphs := [];
     doc_tables := [];
     related_parts :=
       [ ("rId1", {| content_type := "image/png"; blob := "PNG" |});
         ("rId2", {| content_type := "application/xml"; blob := "<s/>" |});
         ("rId3", {| content_type := "image/jpeg"; blob := "JPG" |}) ] |}.


(** The snapshot the reader takes of the table number [i]. *)
Definition snapshot (i : nat) (table : list (list string)) : TableSnapshot :=
  {| table_index := i;
     table_data := table;
     table_rows := length table;
     table_cols := match table with [] => 0 | row :: _ => length row end |}.

(** The reader keeps a paragraph that has a text or an image. *)
Definition kept_by_reader (dp : DocxParagraph) : bool :=
  truthy (strip (Docx.paragraph_text dp))
  || has_image (analyze_paragraph_structure dp).

(** The unit the reader makes of the paragraph at position [i]. *)
Definition unit_read (i : nat) (dp : DocxParagraph) : Paragraph :=
  with_index (analyze_paragraph_structure dp) i.

(** A document with an empty paragraph between two paragraphs of text. *)
Definition document_with_gap : Document :=
  {| doc_paragraphs :=
       [ paragraph_of [text_run "One"];
         paragraph_of [];
         paragraph_of [text_run "Three"] ];
     doc_tables := [ [ ["a"; "b"]; ["c"; "d"] ]; [] ];
     related_parts := [] |}.

(** The runs [rs'] keep every run of [rs] where it is, with its bold and
    italic attributes, and have at most one run more. *)
Definition keeps_runs (rs rs' : list Run) : Prop :=
  length rs <= length rs' <= S (length rs)
  /\ forall (i : nat) (r : Run),
       rs !! i = Some r ->
       exists r', rs' !! i = Some r' /\ bold r' = bold r /\ italic r' = italic r.

(** The unit the writer uses for the paragraph at position [i]: the last
    unit whose index, or whose position when it has no index, is [i]. *)
Definition unit_for (units : list Paragraph) (i : nat) : option Paragraph :=
  snd <$> last (List.filter
                  (fun it : nat * Paragraph => default it.1 (index it.2) =? i)
                  (zip (seq 0 (length units)) units)).

(** The content a run hands to the writer, for the document it read and
    the paragraphs the processor returned. *)
Definition content_of (doc : Document) (translated_paragraphs : list Paragraph)
  : Content :=
  TranslationSystem._create_translated_content translated_paragraphs
    (TranslationSystem._translate_tables (tables (DocumentReader.read doc)))
    (DocumentReader.read doc).

(** The document the writer builds from a content: the original with its
    paragraphs updated when there is one, a new document otherwise. *)
Definition written_document (original : option Document) (content : Content)
  : Document :=
  match original with
  | Some orig => _update_original_document content orig
  | None => _create_new_document content
  end.

(** Whether the library refuses a text the writer hands it while it
    builds that document. *)
Definition writer_refuses (original : option Document) (content : Content)
  : bool :=
  match original with
  | Some orig => update_refused content orig
  | None => create_refused content
  end.

(** A text the library accepts. *)
Definition accepted (t : string) : Prop := Docx.accepts t = true.

(** Every text of the document is one the library accepts, as the texts
    are that the library has read from a file. *)
Definition document_texts_accepted (doc : Document) : Prop :=
  Forall (fun paragraph =>
            Forall (fun run => accepted (run_text run)) (runs paragraph))
         (doc_paragraphs doc).

(** Every answer of the backend is a text the library accepts. *)
Definition answers_accepted (backend : Backend) : Prop :=
  forall (k : nat) (task : Task) (raw : string),
    backend k task = Some raw -> accepted raw.

(** The summary of a run over [doc]. *)
Definition summary_of (doc : Document) (translated_paragraphs : list Paragraph)
    (output_doc lang : value) : Summary :=
  {| status := "completed";
     output_file := output_doc;
     paragraphs_translated := length translated_paragraphs;
     tables_translated :=
       length (TranslationSystem._translate_tables
                 (tables (DocumentReader.read doc)));
     images_preserved := size (images (DocumentReader.read doc));
     total_paragraphs := length (paragraphs (DocumentReader.read doc));
     target_language := lang |}.

(** A file system whose paths are strings, with one file,
    [/work/input.docx], in the working directory [/work]. *)
Definition one_file_system : FileSystem :=
  {| path := string;
     Path := fun s => s;
     path_str := fun p => p;
     cwd_join := fun s => "/work/" +:+ s;
     desktop_join := fun s => "/home/user/Desktop/" +:+ s;
     path_exists := fun p => String.eqb p "/work/input.docx" |}.

(** A file system with one file, on the desktop, named [paper.docx]. *)
Definition desktop_file_system : FileSystem :=
  {| path := string;
     Path := fun s => s;
     path_str := fun p => p;
     cwd_join := fun s => "/work/" +:+ s;
     desktop_join := fun s => "/home/user/Desktop/" +:+ s;
     path_exists := fun p => String.eqb p "/home/user/Desktop/paper.docx" |}.

(** A configuration that names [paper.docx] as its input. *)
Definition config_paper : gmap string value :=
  {[ "input_doc" := VStr "paper.docx" ]}.

(** The string holds a line feed. *)
Fixpoint has_newline (s : string) : bool :=
  match s with
  | EmptyString => false
  | String c s' => Ascii.eqb c "010" || has_newline s'
  end.

(** A line the cleaner lets through: not empty, trimmed, no comment, no
    bracketed marker, no metadata keyword in any letter case. *)
Definition kept_line (line : string) : Prop :=
  truthy line = true
  /\ strip line = line
  /\ startswith line "#" = false
  /\ startswith line "[Translation of item" = false
  /\ existsb (fun keyword => contains keyword (lower line)) METADATA_KEYWORDS
     = false.

(** The cleaning of the lines, once the preamble is gone. *)
Definition clean_body (text : string) : string :=
  strip (join newline (fold_left clean_line (split_lines text) [])).

(** A configuration without target language. *)
Definition config_without_language : gmap string value :=
  delete "target_language" Config.DEFAULT_CONFIG.

(** The strings [a] and [b] differ at a position both have. *)
Fixpoint differ (a b : string) : bool :=
  match a, b with
  | String c a', String d b' =>
      if Ascii.eqb c d then differ a' b' else true
  | _, _ => false
  end.
(** * Properties *)

(** ** The alignment of the parsed items with the batch *)

Section Alignment.
Variable items : list string.

Lemma align_from_lookup (batch_texts : list string) (k i : nat) :
  align_from items k batch_texts !! i
  = aligned_text items (k + count_nonblank (take i batch_texts))
      <$> batch_texts !! i.
Proof.
  revert k i. induction batch_texts as [|o rest IH]; intros k i.
  - reflexivity.
  - destruct i as [|i]; cbn [align_from].
    + unfold aligned_text, nonblank, count_nonblank. cbn.
      rewrite Nat.add_0_r.
      destruct (truthy (strip o)); [|reflexivity].
      destruct (items !! k); reflexivity.
    + unfold count_nonblank. cbn [take List.filter lookup list_lookup].
      fold (nonblank o).
      destruct (nonblank o) eqn:Ho.
      * destruct (items !! k) eqn:Hk; cbn [lookup list_lookup length].
        -- rewrite IH. unfold count_nonblank.
           replace (S k + length (List.filter nonblank (take i rest)))
             with (k + S (length (List.filter nonblank (take i rest))))
             by lia.
           reflexivity.
        -- rewrite IH. unfold count_nonblank, aligned_text.
           destruct (rest !! i) as [o'|]; [|reflexivity]. cbn.
           destruct (nonblank o'); [|reflexivity].
           apply lookup_ge_None_1 in Hk.
           rewrite !(lookup_ge_None_2 items) by lia. reflexivity.
      * cbn [lookup list_lookup]. apply IH.
Qed.

Lemma align_from_length (batch_texts : list string) (k : nat) :
  length (align_from items k batch_texts) = length batch_texts.
Proof.
  revert k. induction batch_texts as [|o rest IH]; intros k; cbn.
  - reflexivity.
  - destruct (truthy (strip o)); [destruct (items !! k)|]; cbn; by rewrite IH.
Qed.

End Alignment.

Lemma align_from_discards (items batch_texts : list string) (k : nat) :
  align_from items k batch_texts
  = align_from (take (k + count_nonblank batch_texts) items) k batch_texts.
Proof.
  revert k. induction batch_texts as [|o rest IH]; intros k.
  - reflexivity.
  - unfold count_nonblank. cbn [align_from List.filter].
    fold (nonblank o). destruct (nonblank o) eqn:Ho; cbn [length].
    + destruct (items !! k) as [t|] eqn:Hk.
      * rewrite lookup_take_lt by lia. rewrite Hk. f_equal.
        rewrite IH. unfold count_nonblank. f_equal. f_equal. lia.
      * apply lookup_ge_None_1 in Hk.
        rewrite take_ge by lia. rewrite (lookup_ge_None_2 items) by lia.
        reflexivity.
    + f_equal. apply IH.
Qed.

(** C1.  For every raw response and every batch, the parse followed by the
    alignment gives one string per entry of the batch, in batch order: at a
    position whose original is not blank, the next parsed item, or the
    original when the items are used up; at a blank position, the original,
    which uses no item.  The items beyond the number of non-blank originals
    play no part. *)
Theorem C1_alignment_keeps_batch_shape (raw : string) (batch_texts : list string) :
  let parsed := parse_items (clean_translation_result raw) in
  let out := _parse_translation_result raw batch_texts in
  length out = length batch_texts
  /\ (forall i : nat,
        out !! i
        = (fun original =>
             if nonblank original
             then default original
                    (parsed !! count_nonblank (take i batch_texts))
             else original) <$> batch_texts !! i)
  /\ out = _align_translations_with_inputs
             (take (count_nonblank batch_texts) parsed) batch_texts.
Proof.
  cbn zeta. unfold _parse_translation_result, _align_translations_with_inputs.
  split; [apply align_from_length|]. split.
  - intros i. rewrite align_from_lookup. reflexivity.
  - apply (align_from_discards _ _ 0).
Qed.

(** ** Writing the translations back *)

Lemma update_from_zip (batch : list Paragraph) (ts : list string) (j : nat) :
  update_from batch j ts = zip_with with_text (drop j batch) ts.
Proof.
  revert j. induction ts as [|t ts IH]; intros j; cbn [update_from].
  - by destruct (drop j batch).
  - destruct (batch !! j) as [p|] eqn:Hj.
    + rewrite (drop_S _ _ _ Hj). cbn. by rewrite IH.
    + rewrite IH. apply lookup_ge_None_1 in Hj.
      rewrite !drop_ge by lia. reflexivity.
Qed.

Lemma with_text_same (p : Paragraph) : with_text p (text p) = p.
Proof. by destruct p. Qed.

Lemma zip_with_text_id (batch : list Paragraph) :
  zip_with with_text batch (map text batch) = batch.
Proof.
  induction batch as [|p ps IH]; cbn; [reflexivity|].
  by rewrite with_text_same, IH.
Qed.

(** ** The prompt of a batch *)

Lemma number_texts_entries (batch_texts : list string) (i : nat) :
  number_texts i batch_texts
  = map numbered_entry
      (List.filter (fun it : nat * string => nonblank it.2)
         (zip (seq i (length batch_texts)) batch_texts)).
Proof.
  revert i. induction batch_texts as [|t rest IH]; intros i; cbn.
  - reflexivity.
  - unfold nonblank at 1. cbn. destruct (truthy (strip t)); cbn; by rewrite IH.
Qed.

Lemma prompt_entries_nil (batch_texts : list string) :
  prompt_entries batch_texts = [] <-> count_nonblank batch_texts = 0.
Proof.
  unfold prompt_entries, count_nonblank. generalize 1.
  induction batch_texts as [|t rest IH]; intros i; cbn.
  - done.
  - destruct (nonblank t); cbn; [split; discriminate | apply IH].
Qed.



(** ** The scenario of the specification *)

(** C6.  For the batch "Hello world.", "", "Good morning." and the raw
    response "1. Bonjour le monde." / "2. Bonjour.", the parse and the
    alignment give "Bonjour le monde.", "", "Bonjour.": the prompt holds
    the first and the third text only, the empty second text comes back as
    it is and the second item goes to the third text. *)
Theorem C6_scenario_hello_world :
  let batch := ["Hello world."; EmptyString; "Good morning."] in
  let raw := "1. Bonjour le monde." +:+ newline +:+ "2. Bonjour." in
  let expected := ["Bonjour le monde."; EmptyString; "Bonjour."] in
  _parse_translation_result raw batch = expected
  /\ number_texts 1 batch = ["1. Hello world."; "3. Good morning."]
  /\ exists task,
       translate_batch Config.DEFAULT_CONFIG (fun _ _ => Some raw) batch 0
       = Ok (expected, [task]).
Proof.
  cbn zeta. split; [vm_compute; reflexivity|].
  split; [vm_compute; reflexivity|].
  eexists. vm_compute. reflexivity.
Qed.

(** ** One batch *)

Lemma init_ok (config : gmap string value) :
  TranslationEngine.init config = Ok tt
  <-> exists lang, config !! "target_language" = Some lang.
Proof.
  unfold TranslationEngine.init, Config.getitem.
  destruct (config !! "target_language") as [lang|]; cbn.
  - split; [eauto|reflexivity].
  - split; [discriminate|]. by intros [lang ?].
Qed.

Section OneBatch.
Variable config : gmap string value.

Lemma create_task_ok (lang : value) (batch_text : string) :
  config !! "target_language" = Some lang ->
  exists task, _create_translation_task config batch_text = Ok task.
Proof.
  intros Hl. unfold _create_translation_task, Config.getitem.
  rewrite Hl. cbn. eauto.
Qed.

Lemma translate_batch_length (backend : Backend) (texts ts : list string)
    (k : nat) (sent : list Task) :
  translate_batch config backend texts k = Ok (ts, sent) ->
  length ts = length texts.
Proof.
  unfold translate_batch. intros H.
  destruct (number_texts 1 texts); [by inversion H|].
  destruct (_create_translation_task config _) as [task|]; cbn in H;
    [|discriminate].
  destruct (backend k task); inversion H; subst; [|reflexivity].
  apply align_from_length.
Qed.

Lemma translate_batch_total (backend : Backend) (lang : value)
    (texts : list string) (k : nat) :
  config !! "target_language" = Some lang ->
  exists ts sent, translate_batch config backend texts k = Ok (ts, sent).
Proof.
  intros Hl. unfold translate_batch.
  destruct (number_texts 1 texts) as [|e es]; [by eauto|].
  destruct (create_task_ok lang
              (join (newline +:+ newline) (e :: es)) Hl) as [task ->].
  cbn. destruct (backend k task); eauto.
Qed.

Lemma translate_batch_ext (b1 b2 : Backend) (texts : list string) (k : nat) :
  (forall task, b1 k task = b2 k task) ->
  translate_batch config b1 texts k = translate_batch config b2 texts k.
Proof.
  intros Hb. unfold translate_batch.
  destruct (number_texts 1 texts); [reflexivity|].
  destruct (_create_translation_task config _) as [task|]; cbn;
    [|reflexivity].
  by rewrite Hb.
Qed.

Lemma translate_batch_failure (backend : Backend) (texts ts : list string)
    (k : nat) (sent : list Task) :
  (forall task, backend k task = None) ->
  translate_batch config backend texts k = Ok (ts, sent) ->
  ts = texts.
Proof.
  intros Hb. unfold translate_batch. intros H.
  destruct (number_texts 1 texts); [by inversion H|].
  destruct (_create_translation_task config _) as [task|]; cbn in H;
    [|discriminate].
  rewrite Hb in H. by inversion H.
Qed.

End OneBatch.

(** ** The loop over the batches *)

Section Batches.
Variable config : gmap string value.
Variable backend : Backend.
Variable lang : value.
Hypothesis Hlang : config !! "target_language" = Some lang.
Variable bs : nat.
Hypothesis Hbs : 0 < bs.
Variable ps : list Paragraph.

(** The loop, whatever [time.sleep] does: it is not reached when there
    is no batch, and it ends the loop after the first batch when it
    raises. *)
Lemma batches_loop_result (m a : nat) (acc : list Paragraph)
    (sent : list Task) :
  batches_loop config backend bs ps (map (fun k => k * bs) (seq a m)) acc sent
  = match m with
    | 0 => Ok (acc, sent)
    | S _ =>
        match sleep (Config.get config "batch_delay" (VInt 1)) with
        | Ok _ =>
            Ok (acc ++ concat (map (batch_units config backend bs ps) (seq a m)),
                sent ++ concat (map (batch_calls config backend bs ps) (seq a m)))
        | Raise e => Raise e
        end
    end.
Proof.
  revert a acc sent. induction m as [|m IH]; intros a acc sent; [reflexivity|].
  cbn [seq map batches_loop concat].
  rewrite Nat.div_mul by lia.
  unfold batch_units, batch_calls, batch_result at 1.
  fold (batch_at bs ps a).
  destruct (translate_batch_total config backend lang
              (map text (batch_at bs ps a)) a Hlang) as (ts & snt & Ht).
  rewrite Ht. cbn [mbind result_bind].
  destruct (sleep (Config.get config "batch_delay" (VInt 1))) as [[]|e] eqn:Hs;
    cbn [mbind result_bind]; [|reflexivity].
  rewrite IH, update_from_zip, drop_0.
  destruct m as [|m]; [by rewrite !app_nil_r|].
  by rewrite <- !app_assoc.
Qed.

Lemma batches_loop_concat (m a : nat) (acc : list Paragraph)
    (sent : list Task) :
  delay_accepted config ->
  batches_loop config backend bs ps (map (fun k => k * bs) (seq a m)) acc sent
  = Ok (acc ++ concat (map (batch_units config backend bs ps) (seq a m)),
        sent ++ concat (map (batch_calls config backend bs ps) (seq a m))).
Proof.
  intros Hdelay. rewrite batches_loop_result. unfold delay_accepted in Hdelay.
  rewrite Hdelay. destruct m; [by rewrite !app_nil_r|reflexivity].
Qed.

Lemma batches_loop_inv (m a : nat) (acc : list Paragraph) (sent : list Task)
    (r : list Paragraph * list Task) :
  batches_loop config backend bs ps (map (fun k => k * bs) (seq a m)) acc sent
  = Ok r ->
  r = (acc ++ concat (map (batch_units config backend bs ps) (seq a m)),
       sent ++ concat (map (batch_calls config backend bs ps) (seq a m))).
Proof.
  rewrite batches_loop_result. destruct m as [|m].
  - intros [= <-]. by rewrite !app_nil_r.
  - destruct (sleep _) as [[]|e]; [by intros [= <-]|discriminate].
Qed.

Lemma batch_result_length (k : nat) :
  length (batch_result config backend bs ps k) = length (batch_at bs ps k).
Proof.
  unfold batch_result.
  destruct (translate_batch_total config backend lang
              (map text (batch_at bs ps k)) k Hlang) as (ts & snt & Ht).
  rewrite Ht. apply translate_batch_length in Ht.
  by rewrite Ht, length_map.
Qed.

Lemma batch_units_length (k : nat) :
  length (batch_units config backend bs ps k) = length (batch_at bs ps k).
Proof.
  unfold batch_units. rewrite length_zip_with, batch_result_length. lia.
Qed.

Lemma batch_at_length (k : nat) :
  length (batch_at bs ps k) = Nat.min bs (length ps - k * bs).
Proof. unfold batch_at. by rewrite length_take, length_drop. Qed.

Lemma units_length (m a : nat) :
  length (concat (map (batch_units config backend bs ps) (seq a m)))
  = Nat.min (m * bs) (length ps - a * bs).
Proof.
  revert a. induction m as [|m IH]; intros a; cbn [seq map concat].
  - reflexivity.
  - rewrite length_app, IH, batch_units_length, batch_at_length. cbn. lia.
Qed.

Lemma units_lookup (m a i : nat) :
  i < length ps - a * bs -> i < m * bs ->
  concat (map (batch_units config backend bs ps) (seq a m)) !! i
  = batch_units config backend bs ps (a + i / bs) !! (i mod bs).
Proof.
  revert a i. induction m as [|m IH]; intros a i Hi Him; [lia|].
  cbn [seq map concat].
  destruct (decide (i < bs)) as [Hlt|Hge].
  - rewrite lookup_app_l
      by (rewrite batch_units_length, batch_at_length; lia).
    rewrite Nat.div_small, Nat.mod_small, Nat.add_0_r by lia. reflexivity.
  - rewrite lookup_app_r
      by (rewrite batch_units_length, batch_at_length; lia).
    rewrite batch_units_length, batch_at_length.
    replace (Nat.min bs (length ps - a * bs)) with bs by lia.
    rewrite IH by (cbn in *; lia).
    replace i with ((i - bs) + 1 * bs) at 3 4 by lia.
    rewrite Nat.div_add, Nat.Div0.mod_add by lia.
    f_equal. f_equal. lia.
Qed.

Lemma batch_at_lookup (i : nat) :
  batch_at bs ps (i / bs) !! (i mod bs) = ps !! i.
Proof.
  unfold batch_at.
  rewrite lookup_take_lt by (apply Nat.mod_upper_bound; lia).
  rewrite lookup_drop. f_equal.
  rewrite (Nat.div_mod_eq i bs) at 3. lia.
Qed.

Lemma batches_cover : length ps <= (length ps + bs - 1) / bs * bs.
Proof.
  pose proof (Nat.div_mod_eq (length ps + bs - 1) bs) as E.
  pose proof (Nat.mod_upper_bound (length ps + bs - 1) bs) as U.
  lia.
Qed.

(** The result of the whole loop, batch by batch. *)
Lemma batches_loop_all :
  delay_accepted config ->
  batches_loop config backend bs ps (range_starts (length ps) bs) [] []
  = Ok (concat (map (batch_units config backend bs ps)
                    (seq 0 ((length ps + bs - 1) / bs))),
        concat (map (batch_calls config backend bs ps)
                    (seq 0 ((length ps + bs - 1) / bs)))).
Proof. intros Hdelay. unfold range_starts. by rewrite batches_loop_concat. Qed.

Lemma batches_loop_all_inv (r : list Paragraph * list Task) :
  batches_loop config backend bs ps (range_starts (length ps) bs) [] [] = Ok r ->
  r = (concat (map (batch_units config backend bs ps)
                   (seq 0 ((length ps + bs - 1) / bs))),
       concat (map (batch_calls config backend bs ps)
                   (seq 0 ((length ps + bs - 1) / bs)))).
Proof. unfold range_starts. intros H. by apply batches_loop_inv in H. Qed.

Lemma all_units_length :
  length (concat (map (batch_units config backend bs ps)
                      (seq 0 ((length ps + bs - 1) / bs))))
  = length ps.
Proof. rewrite units_length. pose proof batches_cover. lia. Qed.

Lemma all_units_lookup (i : nat) :
  concat (map (batch_units config backend bs ps)
              (seq 0 ((length ps + bs - 1) / bs))) !! i
  = batch_units config backend bs ps (i / bs) !! (i mod bs).
Proof.
  destruct (decide (i < length ps)) as [Hi|Hi].
  - rewrite units_lookup by (pose proof batches_cover; lia). reflexivity.
  - rewrite lookup_ge_None_2 by (rewrite all_units_length; lia).
    symmetry. apply lookup_ge_None_2.
    rewrite batch_units_length.
    assert (ps !! i = None) as Hn by (apply lookup_ge_None_2; lia).
    rewrite <- batch_at_lookup in Hn. by apply lookup_ge_None_1 in Hn.
Qed.

Lemma all_units_same_but_text :
  Forall2 same_but_text ps
    (concat (map (batch_units config backend bs ps)
                 (seq 0 ((length ps + bs - 1) / bs)))).
Proof.
  apply Forall2_same_length_lookup_2.
  - by rewrite all_units_length.
  - intros i p q Hp Hq. rewrite all_units_lookup in Hq.
    unfold batch_units in Hq. apply lookup_zip_with_Some in Hq.
    destruct Hq as (p' & t & -> & Hp' & _).
    rewrite batch_at_lookup in Hp'. rewrite Hp in Hp'.
    inversion Hp'; subst. unfold same_but_text. by destruct p'.
Qed.

End Batches.

(** ** The batch processor *)

Section Processor.
Variable config : gmap string value.
Variable backend : Backend.
Variable lang : value.
Hypothesis Hlang : config !! "target_language" = Some lang.
Variable z : Z.
Hypothesis Hsize : configured_batch_size config = Ok z.
Hypothesis Hpos : (0 < z)%Z.

Lemma process_paragraphs_batches (ps : list Paragraph) :
  delay_accepted config ->
  process_paragraphs config backend ps
  = Ok (concat (map (batch_units config backend (Z.to_nat z) ps)
                    (seq 0 ((length ps + Z.to_nat z - 1) / Z.to_nat z))),
        concat (map (batch_calls config backend (Z.to_nat z) ps)
                    (seq 0 ((length ps + Z.to_nat z - 1) / Z.to_nat z)))).
Proof using Hlang Hsize Hpos.
  intros Hdelay.
  unfold process_paragraphs. unfold configured_batch_size in Hsize.
  rewrite Hsize. cbn [mbind result_bind].
  destruct (Z.eqb_spec z 0) as [->|_]; [lia|].
  destruct (Z.ltb_spec z 0) as [?|_]; [lia|].
  apply (batches_loop_all config backend lang Hlang); [lia|exact Hdelay].
Qed.

(** What the processor has returned, when it returns. *)
Lemma process_paragraphs_inv (ps out : list Paragraph) (sent : list Task) :
  process_paragraphs config backend ps = Ok (out, sent) ->
  out = concat (map (batch_units config backend (Z.to_nat z) ps)
                    (seq 0 ((length ps + Z.to_nat z - 1) / Z.to_nat z)))
  /\ sent = concat (map (batch_calls config backend (Z.to_nat z) ps)
                      (seq 0 ((length ps + Z.to_nat z - 1) / Z.to_nat z))).
Proof using Hlang Hsize Hpos.
  unfold process_paragraphs. unfold configured_batch_size in Hsize.
  rewrite Hsize. cbn [mbind result_bind].
  destruct (Z.eqb_spec z 0) as [->|_]; [lia|].
  destruct (Z.ltb_spec z 0) as [?|_]; [lia|].
  intros H.
  apply (batches_loop_all_inv config backend lang Hlang) in H; [|lia].
  by inversion H.
Qed.

End Processor.

(** C2.  Whatever the backend does, on success or on an exception, the
    processor returns as many units as it was given, in the same order:
    the unit at each position has the index of the input unit at that
    position, and differs from it in its text at most.  The batch size is
    a positive integer, the delay between batches is one [time.sleep]
    accepts, and the engine has its target language. *)
Theorem C2_units_keep_length_order_index (config : gmap string value)
    (backend : Backend) (lang : value) (z : Z) (ps : list Paragraph) :
  config !! "target_language" = Some lang ->
  configured_batch_size config = Ok z ->
  (0 < z)%Z ->
  delay_accepted config ->
  exists out sent,
    process_paragraphs config backend ps = Ok (out, sent)
    /\ length out = length ps
    /\ (forall i : nat, index <$> out !! i = index <$> ps !! i)
    /\ Forall2 same_but_text ps out.
Proof.
  intros Hlang Hsize Hpos Hdelay.
  pose proof (all_units_same_but_text config backend lang Hlang (Z.to_nat z)
                ltac:(lia) ps) as HF.
  eexists _, _. split.
  { by apply (process_paragraphs_batches config backend lang Hlang z Hsize Hpos). }
  split; [symmetry; by eapply Forall2_length|]. split; [|exact HF].
  intros i.
  destruct (ps !! i) as [p|] eqn:Hp.
  - destruct (Forall2_lookup_l _ _ _ _ _ HF Hp) as (q & -> & Hq).
    cbn. f_equal. unfold same_but_text in Hq. by rewrite Hq.
  - rewrite lookup_ge_None_2; [reflexivity|].
    apply lookup_ge_None_1 in Hp.
    by rewrite <- (Forall2_length _ _ _ HF).
Qed.

Lemma C2_witness :
  exists out sent,
    process_paragraphs Config.DEFAULT_CONFIG failing_backend
      [plain_paragraph 0 "Hello"; plain_paragraph 1 "world";
       plain_paragraph 4 "again"]
    = Ok (out, sent)
    /\ length out = 3
    /\ (forall i : nat,
          index <$> out !! i
          = index <$> [plain_paragraph 0 "Hello"; plain_paragraph 1 "world";
                       plain_paragraph 4 "again"] !! i)
    /\ Forall2 same_but_text
         [plain_paragraph 0 "Hello"; plain_paragraph 1 "world";
          plain_paragraph 4 "again"] out.
Proof.
  apply (C2_units_keep_length_order_index Config.DEFAULT_CONFIG failing_backend
           (VStr "Hindi") 2).
  - reflexivity.
  - reflexivity.
  - lia.
  - reflexivity.
Defined.

(** C3.  When the backend raises on batch [k], [translate_batch] returns
    the texts of that batch as they are, the processor still returns a
    result, the units of batch [k] come back unchanged, and the units of
    every other batch are what they are with any backend that answers the
    other batches alike.  The batch size is a positive integer, the delay
    between batches is one [time.sleep] accepts, and the engine has its
    target language. *)
Theorem C3_batch_failure_is_isolated (config : gmap string value)
    (backend backend' : Backend) (lang : value) (z : Z)
    (ps : list Paragraph) (k : nat) :
  config !! "target_language" = Some lang ->
  configured_batch_size config = Ok z ->
  (0 < z)%Z ->
  delay_accepted config ->
  (forall task, backend k task = None) ->
  (forall j task, j <> k -> backend' j task = backend j task) ->
  (forall texts : list string,
     exists sent, translate_batch config backend texts k = Ok (texts, sent))
  /\ exists out sent out' sent',
       process_paragraphs config backend ps = Ok (out, sent)
       /\ process_paragraphs config backend' ps = Ok (out', sent')
       /\ (forall i : nat, i / Z.to_nat z = k -> out !! i = ps !! i)
       /\ (forall i : nat, i / Z.to_nat z <> k -> out' !! i = out !! i).
Proof.
  intros Hlang Hsize Hpos Hdelay Hfail Hsame.
  assert (forall texts : list string,
            exists sent, translate_batch config backend texts k
                         = Ok (texts, sent)) as Hone.
  { intros texts.
    destruct (translate_batch_total config backend lang texts k Hlang)
      as (ts & sent & Ht).
    exists sent. rewrite Ht.
    by rewrite (translate_batch_failure config backend texts ts k sent Hfail Ht). }
  split; [exact Hone|].
  eexists _, _, _, _.
  split;
    [by apply (process_paragraphs_batches config backend lang Hlang z Hsize Hpos)|].
  split;
    [by apply (process_paragraphs_batches config backend' lang Hlang z Hsize Hpos)|].
  assert (0 < Z.to_nat z) as Hbs by lia.
  split; intros i Hi.
  - rewrite (all_units_lookup config backend lang Hlang _ Hbs).
    rewrite Hi. unfold batch_units, batch_result.
    destruct (Hone (map text (batch_at (Z.to_nat z) ps k))) as [sent ->].
    rewrite zip_with_text_id. rewrite <- Hi. by apply batch_at_lookup.
  - rewrite !(all_units_lookup config _ lang Hlang _ Hbs).
    unfold batch_units, batch_result.
    rewrite (translate_batch_ext config backend' backend); [reflexivity|].
    intros task. by apply Hsame.
Qed.

Lemma C3_witness :
  (forall texts : list string,
     exists sent,
       translate_batch Config.DEFAULT_CONFIG failing_backend texts 0
       = Ok (texts, sent))
  /\ exists out sent out' sent',
       process_paragraphs Config.DEFAULT_CONFIG failing_backend
         [plain_paragraph 0 "a"; plain_paragraph 1 "b"; plain_paragraph 2 "c"]
       = Ok (out, sent)
       /\ process_paragraphs Config.DEFAULT_CONFIG
            (fun j task => if decide (j = 0) then Some "1. x" else None)
            [plain_paragraph 0 "a"; plain_paragraph 1 "b"; plain_paragraph 2 "c"]
          = Ok (out', sent')
       /\ (forall i : nat,
             i / Z.to_nat 2 = 0 ->
             out !! i
             = [plain_paragraph 0 "a"; plain_paragraph 1 "b";
                plain_paragraph 2 "c"] !! i)
       /\ (forall i : nat, i / Z.to_nat 2 <> 0 -> out' !! i = out !! i).
Proof.
  apply (C3_batch_failure_is_isolated Config.DEFAULT_CONFIG failing_backend
           (fun j task => if decide (j = 0) then Some "1. x" else None)
           (VStr "Hindi") 2).
  - reflexivity.
  - reflexivity.
  - lia.
  - reflexivity.
  - reflexivity.
  - intros j task Hj. destruct (decide (j = 0)); [contradiction|reflexivity].
Defined.

(** ** The summary of a run *)

(** C10, as the code has it.  A run that reaches the summary with a
    batch size that is not negative reports the status "completed" and as
    many paragraphs translated as the document has paragraphs, whatever
    the backend did on each batch. *)
Theorem C10_summary_counts_agree (world : World) (config : gmap string value)
    (backend : Backend) (z : Z) (o : Outcome) :
  configured_batch_size config = Ok z ->
  (0 <= z)%Z ->
  TranslationSystem.run_translation world config backend = Ok o ->
  status (summary o) = "completed"
  /\ paragraphs_translated (summary o) = total_paragraphs (summary o).
Proof.
  intros Hsize Hz. unfold TranslationSystem.run_translation.
  unfold Config.getitem at 1.
  destruct (config !! "target_language") as [lang|] eqn:Hlang; cbn;
    [|discriminate].
  destruct (TranslationSystem._read_document world config) as [dc|]; cbn;
    [|discriminate].
  unfold TranslationSystem._translate_paragraphs.
  destruct (decide (z = 0%Z)) as [->|Hnz].
  { unfold process_paragraphs. unfold configured_batch_size in Hsize.
    rewrite Hsize. cbn. discriminate. }
  destruct (process_paragraphs config backend (paragraphs dc))
    as [[tp sent]|] eqn:Hproc; cbn [mbind result_bind]; [|discriminate].
  apply (process_paragraphs_inv config backend lang Hlang z Hsize) in Hproc
    as [-> _]; [|lia].
  destruct (TranslationSystem._write_document world config _) as [w|];
    cbn [mbind result_bind]; [|discriminate].
  unfold TranslationSystem._create_result_summary, Config.getitem.
  rewrite Hlang.
  destruct (config !! "output_doc") as [od|]; cbn; [|discriminate].
  intros H. inversion H; subst; cbn. split; [reflexivity|].
  apply (all_units_length config backend lang Hlang); lia.
Qed.

Lemma C10_witness :
  exists o,
    TranslationSystem.run_translation sample_world Config.DEFAULT_CONFIG
      failing_backend = Ok o
    /\ status (summary o) = "completed"
    /\ paragraphs_translated (summary o) = total_paragraphs (summary o).
Proof.
  eexists. split; [vm_compute; reflexivity|].
  apply (C10_summary_counts_agree sample_world Config.DEFAULT_CONFIG
           failing_backend 2).
  - reflexivity.
  - lia.
  - vm_compute. reflexivity.
Defined.

(** C10, as it is stated, fails: with the batch size -1 the range of the
    batches is empty, and the run reaches the summary with the status
    "completed" and no paragraph translated out of three. *)
Lemma C10_counterexample :
  exists o,
    TranslationSystem.run_translation sample_world config_negative_batch_size
      failing_backend = Ok o
    /\ status (summary o) = "completed"
    /\ total_paragraphs (summary o) = 3
    /\ paragraphs_translated (summary o) = 0
    /\ paragraphs_translated (summary o) <> total_paragraphs (summary o).
Proof.
  eexists. split; [vm_compute; reflexivity|].
  cbn. repeat split; try reflexivity. discriminate.
Qed.

(** ** The default batch size *)

Lemma batch_size_absent (config : gmap string value) :
  config !! "batch_size" = None -> configured_batch_size config = Ok 3%Z.
Proof.
  intros H. unfold configured_batch_size, Config.get. by rewrite H.
Qed.

(** C9.  With a configuration that sets no batch size, three paragraphs
    go to the backend as one batch of three: the size used is 3, where the
    default configuration says 2 and makes two batches of them. *)
Theorem C9_absent_batch_size_is_three :
  let ps := [plain_paragraph 0 "a"; plain_paragraph 1 "b";
             plain_paragraph 2 "c"] in
  config_without_batch_size !! "batch_size" = None
  /\ configured_batch_size
       (Config.load_config (Some config_without_batch_size)) = Ok 3%Z
  /\ configured_batch_size (Config.load_config None) = Ok 2%Z
  /\ (exists task,
        process_paragraphs config_without_batch_size failing_backend ps
        = Ok (ps, [task])
        /\ _create_translation_task config_without_batch_size
             (prompt_body ["a"; "b"; "c"]) = Ok task)
  /\ (exists task1 task2,
        process_paragraphs Config.DEFAULT_CONFIG failing_backend ps
        = Ok (ps, [task1; task2])
        /\ _create_translation_task Config.DEFAULT_CONFIG
             (prompt_body ["a"; "b"]) = Ok task1
        /\ _create_translation_task Config.DEFAULT_CONFIG
             (prompt_body ["c"]) = Ok task2).
Proof.
  cbn zeta. split; [reflexivity|]. split; [reflexivity|].
  split; [reflexivity|]. split.
  - eexists. split; vm_compute; reflexivity.
  - eexists _, _. split; [vm_compute; reflexivity|].
    split; vm_compute; reflexivity.
Qed.

(** ** The analysis of a paragraph *)

Lemma fold_analyze_has_image (rs : list Run) (s : Paragraph) :
  has_image (fold_left analyze_run rs s) = has_image s || existsb has_pic rs.
Proof.
  revert s. induction rs as [|r rs IH]; intros s; cbn.
  - by rewrite orb_false_r.
  - rewrite IH. cbn. destruct (has_pic r), (has_image s); reflexivity.
Qed.

Lemma fold_analyze_image_data (rs : list Run) (s : Paragraph) :
  image_data (fold_left analyze_run rs s)
  = match last (omap run_image_id rs) with
    | Some image_id => Some image_id
    | None => image_data s
    end.
Proof.
  revert s. induction rs as [|r rs IH]; intros s.
  - reflexivity.
  - change (omap run_image_id (r :: rs))
      with (match run_image_id r with
            | Some x => x :: omap run_image_id rs
            | None => omap run_image_id rs
            end).
    cbn [fold_left]. rewrite IH. unfold run_image_id at 2.
    cbn [analyze_run image_data].
    destruct (has_pic r); [|reflexivity].
    destruct (first_embed (blip_embeds r)) as [x|]; [|reflexivity].
    rewrite last_cons. by destruct (last (omap run_image_id rs)).
Qed.

(** C8, as the code has it.  The analysis sets [has_image] exactly when
    some run holds a picture.  [image_data] is the identifier contributed
    by the last run that contributes one (the first embed identifier of
    that run), and nothing when no run does; when at most one run
    contributes an identifier, this is the first embedded image met in
    the paragraph. *)
Theorem C8_image_data_is_last_run (paragraph : DocxParagraph) :
  has_image (analyze_paragraph_structure paragraph)
  = existsb has_pic (runs paragraph)
  /\ image_data (analyze_paragraph_structure paragraph)
     = last (image_ids paragraph)
  /\ (length (image_ids paragraph) <= 1 ->
      image_data (analyze_paragraph_structure paragraph)
      = first_image_id paragraph).
Proof.
  assert (image_data (analyze_paragraph_structure paragraph)
          = last (image_ids paragraph)) as Hlast.
  { unfold analyze_paragraph_structure, image_ids.
    rewrite fold_analyze_image_data. cbn.
    by destruct (last (omap run_image_id (runs paragraph))). }
  split; [|split; [exact Hlast|]].
  - unfold analyze_paragraph_structure. by rewrite fold_analyze_has_image.
  - intros Hlen. rewrite Hlast. unfold first_image_id.
    destruct (image_ids paragraph) as [|x [|y l]]; cbn in *;
      [reflexivity|reflexivity|lia].
Qed.

Lemma C8_witness :
  image_data
    (analyze_paragraph_structure
       (paragraph_of [text_run "See "; picture_run "rId3"]))
  = first_image_id (paragraph_of [text_run "See "; picture_run "rId3"]).
Proof.
  apply (C8_image_data_is_last_run
           (paragraph_of [text_run "See "; picture_run "rId3"])).
  vm_compute. lia.
Defined.

(** C8, as the specification states it, fails: with a picture in each of
    two runs, the first embedded image met is "rId1" and [image_data] is
    "rId2". *)
Lemma C8_counterexample :
  has_image (analyze_paragraph_structure two_pictures) = true
  /\ first_image_id two_pictures = Some "rId1"
  /\ image_data (analyze_paragraph_structure two_pictures) = Some "rId2"
  /\ image_data (analyze_paragraph_structure two_pictures)
     <> first_image_id two_pictures.
Proof. repeat split; try reflexivity. vm_compute. discriminate. Qed.

(** ** The update of a paragraph by the writer *)

Lemma keeps_pictures_refl (rs : list Run) : keeps_pictures rs rs.
Proof. by split. Qed.

Lemma keeps_pictures_trans (rs1 rs2 rs3 : list Run) :
  keeps_pictures rs1 rs2 -> keeps_pictures rs2 rs3 -> keeps_pictures rs1 rs3.
Proof.
  intros [H1 F1] [H2 F2]. split; [|congruence].
  intros i run Hi Hp. apply H2; [by apply H1|exact Hp].
Qed.

Lemma keeps_pictures_cleared (rs : list Run) :
  keeps_pictures rs
    (map (fun run => if has_pic run then run else Docx.set_text run EmptyString)
         rs).
Proof.
  split.
  - intros i run Hi Hp. rewrite list_lookup_fmap, Hi. cbn. by rewrite Hp.
  - induction rs as [|r rs IH]; cbn; [reflexivity|].
    destruct (has_pic r) eqn:Hr; cbn; rewrite ?Hr; by rewrite IH.
Qed.

Lemma keeps_pictures_add (rs : list Run) (t : string) :
  keeps_pictures rs (rs ++ [Docx.new_run t]).
Proof.
  split.
  - intros i run Hi _. by apply lookup_app_l_Some.
  - rewrite List.filter_app. cbn. by rewrite app_nil_r.
Qed.

Lemma keeps_pictures_first_text_run (rs rs' : list Run) (t : string) :
  set_first_text_run rs t = Some rs' -> keeps_pictures rs rs'.
Proof.
  revert rs'. induction rs as [|r rs IH]; intros rs'; cbn; [discriminate|].
  destruct (has_pic r) eqn:Hr.
  - destruct (set_first_text_run rs t) as [rs0|]; cbn; [|discriminate].
    intros [= <-]. destruct (IH rs0 eq_refl) as [H F]. split.
    + intros [|i] run Hi Hp; cbn in *; [exact Hi|by apply H].
    + cbn. by rewrite Hr, F.
  - intros [= <-]. split.
    + intros [|i] run Hi Hp; cbn in *; [|exact Hi].
      inversion Hi; subst. congruence.
    + cbn. by rewrite Hr.
Qed.



Lemma update_paragraph_keeps_pictures (paragraph : DocxParagraph)
    (trans_para : Paragraph) :
  keeps_pictures (runs paragraph)
    (runs (_update_paragraph_text paragraph trans_para)).
Proof.
  unfold _update_paragraph_text.
  pose proof (keeps_pictures_cleared (runs paragraph)) as Hc.
  set (cleared := map _ (runs paragraph)) in *.
  destruct (truthy (strip (text trans_para)) && negb (has_image trans_para)).
  - assert (keeps_pictures (runs paragraph)
              (runs (Docx.add_run (Docx.with_runs paragraph cleared)
                       (text trans_para)))) as Hadd.
    { cbn. eapply keeps_pictures_trans; [exact Hc|apply keeps_pictures_add]. }
    destruct cleared as [|c cs] eqn:Ecl; [exact Hadd|].
    destruct (set_first_text_run (c :: cs) (text trans_para)) as [rs|] eqn:Hs;
      [|exact Hadd].
    cbn [Docx.with_runs runs].
    eapply keeps_pictures_trans; [exact Hc|].
    by eapply keeps_pictures_first_text_run.
  - destruct (truthy (strip (text trans_para)) && has_image trans_para);
      [|apply keeps_pictures_refl].
    destruct (set_first_text_run (runs paragraph) (text trans_para))
      as [rs|] eqn:Hs.
    + cbn. by eapply keeps_pictures_first_text_run.
    + cbn. apply keeps_pictures_add.
Qed.




(** ** Trimmed strings *)

Lemma append_cons (c : ascii) (a b : string) :
  String c a +:+ b = String c (a +:+ b).
Proof. reflexivity. Qed.

Lemma rstrip_cons (c : ascii) (s : string) :
  rstrip (String c s)
  = match rstrip s with
    | EmptyString => if isspace c then EmptyString else String c EmptyString
    | r => String c r
    end.
Proof. reflexivity. Qed.

Lemma rstrip_tail (c : ascii) (s : string) :
  rstrip (String c s) = String c s -> rstrip s = s.
Proof.
  cbn. destruct (rstrip s) as [|d r] eqn:E.
  - destruct (isspace c); [discriminate|]. by intros [= <-].
  - by intros [= <-].
Qed.

Lemma rstrip_suffix (pre s : string) :
  rstrip (pre +:+ s) = pre +:+ s -> rstrip s = s.
Proof.
  induction pre as [|c pre IH]; [done|].
  rewrite append_cons. intros H. by apply IH, (rstrip_tail c).
Qed.

Lemma rstrip_idemp (s : string) : rstrip (rstrip s) = rstrip s.
Proof.
  induction s as [|c s IH]; [reflexivity|]. cbn.
  destruct (rstrip s) as [|d r] eqn:E.
  - destruct (isspace c) eqn:Hc; cbn; [reflexivity|]. by rewrite Hc.
  - by rewrite rstrip_cons, IH.
Qed.

Lemma rstrip_app (a b : string) :
  truthy (rstrip b) = true -> rstrip (a +:+ b) = a +:+ rstrip b.
Proof.
  intros Hb. induction a as [|c a IH]; [reflexivity|].
  rewrite !append_cons, rstrip_cons, IH.
  destruct (a +:+ rstrip b) eqn:E; [|reflexivity].
  destruct a; [|by rewrite append_cons in E].
  change (rstrip b = EmptyString) in E. by rewrite E in Hb.
Qed.

Lemma lstrip_suffix (s : string) : exists pre, s = pre +:+ lstrip s.
Proof.
  induction s as [|c s [pre IH]]; [by exists EmptyString|]. cbn.
  destruct (isspace c).
  - exists (String c pre). by rewrite append_cons, <- IH.
  - by exists EmptyString.
Qed.

Lemma head_ok_lstrip (s : string) : head_ok (lstrip s).
Proof.
  induction s as [|c s IH]; [exact I|]. cbn.
  destruct (isspace c) eqn:Hc; [exact IH|exact Hc].
Qed.

Lemma lstrip_head_ok (s : string) : head_ok s -> lstrip s = s.
Proof. destruct s as [|c s]; cbn; [done|]. by intros ->. Qed.

Lemma head_ok_rstrip (s : string) : head_ok s -> head_ok (rstrip s).
Proof.
  destruct s as [|c s]; cbn; [done|]. intros Hc.
  destruct (rstrip s); [by rewrite Hc|exact Hc].
Qed.

Lemma head_ok_strip (s : string) : head_ok (strip s).
Proof. apply head_ok_rstrip, head_ok_lstrip. Qed.

Lemma rstrip_strip (s : string) : rstrip (strip s) = strip s.
Proof. apply rstrip_idemp. Qed.

Lemma strip_trimmed (s : string) : head_ok s -> rstrip s = s -> strip s = s.
Proof. intros H1 H2. unfold strip. by rewrite lstrip_head_ok. Qed.

Lemma skip_digits_suffix (s : string) : exists pre, s = pre +:+ skip_digits s.
Proof.
  induction s as [|c s [pre IH]]; [by exists EmptyString|]. cbn.
  destruct (isdigit c).
  - exists (String c pre). by rewrite append_cons, <- IH.
  - by exists EmptyString.
Qed.

Lemma after_marker_suffix (line rest : string) :
  after_marker line = Some rest -> exists pre, line = pre +:+ rest.
Proof.
  destruct line as [|c s]; cbn; [discriminate|].
  destruct (isdigit c); [|discriminate].
  destruct (skip_digits_suffix s) as [pre Hs].
  destruct (skip_digits s) as [|d r]; [discriminate|].
  destruct (Ascii.ascii_dec d ".") as [->|Hd].
  - intros [= <-]. exists (String c (pre +:+ ".")).
    rewrite append_cons. f_equal.
    rewrite Hs at 1. clear. induction pre as [|d pre IH]; [reflexivity|].
    by rewrite !append_cons, IH.
  - intros H. exfalso. revert H.
    destruct d as [[] [] [] [] [] [] [] []]; try discriminate.
    by destruct Hd.
Qed.

Lemma marker_text_trimmed (line0 rest : string) :
  after_marker (strip line0) = Some rest ->
  head_ok (lstrip rest) /\ rstrip (lstrip rest) = lstrip rest.
Proof.
  intros H. split; [apply head_ok_lstrip|].
  apply after_marker_suffix in H as [pre Hpre].
  destruct (lstrip_suffix rest) as [pre' Hr].
  apply (rstrip_suffix pre'). rewrite <- Hr.
  apply (rstrip_suffix pre). rewrite <- Hpre. apply rstrip_strip.
Qed.

Lemma joined_trimmed (item line : string) :
  truthy item = true -> head_ok item -> rstrip item = item ->
  truthy line = true -> rstrip line = line ->
  truthy (item +:+ " " +:+ line) = true
  /\ head_ok (item +:+ " " +:+ line)
  /\ rstrip (item +:+ " " +:+ line) = item +:+ " " +:+ line.
Proof.
  intros Hi Hh Hr Hl Hrl.
  split; [by destruct item|]. split; [by destruct item|].
  assert (truthy (rstrip (" " +:+ line)) = true) as Ht.
  { rewrite rstrip_app by (by rewrite Hrl). reflexivity. }
  rewrite rstrip_app by exact Ht.
  rewrite rstrip_app by (by rewrite Hrl). by rewrite Hrl.
Qed.

(** ** The items of a cleaned response *)

Lemma same_state_step (st : list string * string)
    (st' : list string * option string) (line0 : string) :
  same_state st st' ->
  marker_has_text line0 = true ->
  same_state (parse_line st line0) (spec_line st' line0).
Proof.
  destruct st as [tt cur], st' as [closed current].
  unfold same_state, marker_has_text. cbn [fst snd]. intros [-> Hcur] Hm.
  unfold parse_line, spec_line, re_match_marker, re_sub_marker.
  destruct (after_marker (strip line0)) as [rest|] eqn:Ha.
  - destruct (marker_text_trimmed line0 rest Ha) as [Hh Hr].
    cbn [fst snd]. split; [|done].
    destruct current as [item|].
    + destruct Hcur as (-> & Ht & Hhi & Hri). rewrite Ht.
      by rewrite strip_trimmed.
    + rewrite Hcur. cbn. by rewrite app_nil_r.
  - destruct current as [item|].
    + destruct Hcur as (-> & Ht & Hhi & Hri). rewrite Ht. cbn [fst snd].
      split; [reflexivity|].
      destruct (truthy (strip line0)) eqn:Hl; [|done].
      split; [reflexivity|].
      apply joined_trimmed; try done. apply rstrip_strip.
    + rewrite Hcur. cbn. done.
Qed.

Lemma same_state_fold (lines : list string) (st : list string * string)
    (st' : list string * option string) :
  same_state st st' ->
  forallb marker_has_text lines = true ->
  same_state (fold_left parse_line lines st) (fold_left spec_line lines st').
Proof.
  revert st st'. induction lines as [|l lines IH]; intros st st' Hs Hm;
    [exact Hs|].
  cbn in Hm. apply andb_true_iff in Hm as [Hl Hm].
  cbn [fold_left]. apply IH; [|exact Hm]. by apply same_state_step.
Qed.

(** The number written in a marker plays no part in the items. *)
Lemma parse_line_same_but_number (st : list string * string) (a b : string) :
  same_but_number a b -> parse_line st a = parse_line st b.
Proof.
  destruct st as [tt cur].
  unfold same_but_number, parse_line, re_match_marker, re_sub_marker.
  destruct (after_marker (strip a)), (after_marker (strip b)); try done.
  - by intros ->.
  - by intros ->.
Qed.

Lemma parse_lines_same_but_number (l1 l2 : list string) :
  Forall2 same_but_number l1 l2 -> parse_lines l1 = parse_lines l2.
Proof.
  unfold parse_lines. generalize (@nil string, EmptyString).
  intros st H. revert st. induction H as [|a b l1 l2 Hab _ IH]; intros st;
    [reflexivity|].
  cbn [fold_left]. rewrite (parse_line_same_but_number st a b Hab).
  apply IH.
Qed.

(** C5, as the code has it.  When every marker line of the cleaned
    response has a text after its marker, the items are those the
    specification describes: one item for each line that begins with an
    integer and a period, made of that line without its marker, with the
    lines that follow and are not empty joined to it by a space up to the
    next marker or the end, in the order of the lines.  The number written
    in a marker is not read: lines that differ in that number at most
    give the same items. *)
Theorem C5_items_follow_markers (cleaned : string) :
  forallb marker_has_text (split_lines cleaned) = true ->
  parse_items cleaned = spec_items cleaned
  /\ (forall lines : list string,
        Forall2 same_but_number (split_lines cleaned) lines ->
        parse_lines lines = parse_items cleaned).
Proof.
  intros Hm. split.
  - unfold parse_items, parse_lines, spec_items.
    pose proof (same_state_fold (split_lines cleaned) ([], EmptyString)
                  ([], None) (conj eq_refl eq_refl) Hm) as Hs.
    destruct (fold_left parse_line _ _) as [tt cur].
    destruct (fold_left spec_line _ _) as [closed current].
    destruct Hs as [Hc Hcur]. cbn [fst snd] in *. subst tt.
    destruct current as [item|].
    + destruct Hcur as (-> & Ht & Hh & Hr). rewrite Ht.
      by rewrite strip_trimmed.
    + rewrite Hcur. cbn. by rewrite app_nil_r.
  - intros lines H. symmetry. by apply parse_lines_same_but_number.
Qed.

Lemma C5_witness :
  parse_items ("7. Bonjour" +:+ newline +:+ "le monde." +:+ newline
               +:+ "3. Salut")
  = spec_items ("7. Bonjour" +:+ newline +:+ "le monde." +:+ newline
                +:+ "3. Salut")
  /\ (forall lines : list string,
        Forall2 same_but_number
          (split_lines ("7. Bonjour" +:+ newline +:+ "le monde." +:+ newline
                        +:+ "3. Salut")) lines ->
        parse_lines lines
        = parse_items ("7. Bonjour" +:+ newline +:+ "le monde." +:+ newline
                       +:+ "3. Salut")).
Proof.
  apply (C5_items_follow_markers
           ("7. Bonjour" +:+ newline +:+ "le monde." +:+ newline
            +:+ "3. Salut")).
  vm_compute. reflexivity.
Defined.

(** C5, as the specification states it, fails: a marker line with
    nothing after its marker opens no item, and the lines below it are
    dropped up to the next marker.  Two marker lines give one item. *)
Lemma C5_counterexample :
  map re_match_marker (split_lines text_below_marker) = [true; false; true]
  /\ spec_items text_below_marker = [" Bonjour"; "Salut"]
  /\ parse_items text_below_marker = ["Salut"]
  /\ parse_items text_below_marker <> spec_items text_below_marker.
Proof. repeat split; try (vm_compute; reflexivity). vm_compute. discriminate. Qed.

(** * Further properties *)

(** ** The parser of the numbered items *)

Lemma parse_line_no_marker (line0 : string) :
  is_marker_line line0 = false ->
  parse_line ([], EmptyString) line0 = ([], EmptyString).
Proof. unfold is_marker_line, parse_line. by intros ->. Qed.

Lemma fold_parse_no_marker (pre : list string) :
  forallb (fun line => negb (is_marker_line line)) pre = true ->
  fold_left parse_line pre ([], EmptyString) = ([], EmptyString).
Proof.
  induction pre as [|l pre IH]; cbn [forallb fold_left]; [done|].
  intros [Hl Hpre]%andb_true_iff. apply negb_true_iff in Hl.
  rewrite parse_line_no_marker by exact Hl. by apply IH.
Qed.

(** X1.  The lines that come before the first marker line belong to no
    item: they are dropped. *)
Theorem X1_lines_before_first_marker_dropped (pre rest : list string) :
  forallb (fun line => negb (is_marker_line line)) pre = true ->
  parse_lines (pre ++ rest) = parse_lines rest.
Proof.
  intros Hpre. unfold parse_lines.
  by rewrite fold_left_app, fold_parse_no_marker.
Qed.

Lemma X1_witness :
  parse_lines (["Voici la traduction"; "demandee"] ++ ["1. Bonjour"])
  = parse_lines ["1. Bonjour"].
Proof.
  apply (X1_lines_before_first_marker_dropped
           ["Voici la traduction"; "demandee"] ["1. Bonjour"]).
  vm_compute. reflexivity.
Defined.

Lemma align_from_no_items (batch_texts : list string) (k : nat) :
  align_from [] k batch_texts = batch_texts.
Proof.
  induction batch_texts as [|o rest IH]; cbn; [reflexivity|].
  rewrite IH. by destruct (truthy (strip o)).
Qed.

(** X2.  A response in which no line begins with an integer and a period
    has no item, and the batch comes back as it was. *)
Theorem X2_response_without_markers_keeps_batch (raw : string)
    (batch_texts : list string) :
  forallb (fun line => negb (is_marker_line line))
    (split_lines (clean_translation_result raw)) = true ->
  parse_items (clean_translation_result raw) = []
  /\ _parse_translation_result raw batch_texts = batch_texts.
Proof.
  intros H.
  assert (parse_items (clean_translation_result raw) = []) as Hno.
  { unfold parse_items, parse_lines. by rewrite fold_parse_no_marker. }
  split; [exact Hno|].
  unfold _parse_translation_result, _align_translations_with_inputs.
  rewrite Hno. apply align_from_no_items.
Qed.

Lemma X2_witness :
  parse_items (clean_translation_result "Je ne peux pas traduire ce texte.")
  = []
  /\ _parse_translation_result "Je ne peux pas traduire ce texte."
       ["Hello world."; EmptyString; "Good morning."]
     = ["Hello world."; EmptyString; "Good morning."].
Proof.
  apply (X2_response_without_markers_keeps_batch
           "Je ne peux pas traduire ce texte."
           ["Hello world."; EmptyString; "Good morning."]).
  vm_compute. reflexivity.
Defined.

Lemma strip_head_rstrip (s : string) :
  head_ok (strip s) /\ rstrip (strip s) = strip s.
Proof. split; [apply head_ok_strip|apply rstrip_strip]. Qed.

Lemma parse_line_trimmed (st : list string * string) (line0 : string) :
  Forall trimmed_nonempty st.1 -> head_ok st.2 -> rstrip st.2 = st.2 ->
  Forall trimmed_nonempty (parse_line st line0).1
  /\ head_ok (parse_line st line0).2
  /\ rstrip (parse_line st line0).2 = (parse_line st line0).2.
Proof.
  destruct st as [tt cur]. cbn [fst snd]. intros Htt Hh Hr.
  unfold parse_line, re_match_marker, re_sub_marker.
  destruct (after_marker (strip line0)) as [rest|] eqn:Ha.
  - destruct (marker_text_trimmed line0 rest Ha) as [Hh' Hr'].
    cbn [fst snd]. split; [|done].
    destruct (truthy cur) eqn:Hc; [|exact Htt].
    apply Forall_app. split; [exact Htt|].
    constructor; [|constructor].
    rewrite (strip_trimmed cur Hh Hr).
    split; [exact Hc|by apply strip_trimmed].
  - destruct (truthy cur) eqn:Hc; cbn [fst snd]; [|done].
    split; [exact Htt|].
    destruct (truthy (strip line0)) eqn:Hl; [|done].
    destruct (joined_trimmed cur (strip line0) Hc Hh Hr Hl (rstrip_strip line0))
      as (_ & H1 & H2).
    done.
Qed.

Lemma fold_parse_trimmed (lines : list string) (st : list string * string) :
  Forall trimmed_nonempty st.1 -> head_ok st.2 -> rstrip st.2 = st.2 ->
  Forall trimmed_nonempty (fold_left parse_line lines st).1
  /\ head_ok (fold_left parse_line lines st).2
  /\ rstrip (fold_left parse_line lines st).2 = (fold_left parse_line lines st).2.
Proof.
  revert st. induction lines as [|l lines IH]; intros st H1 H2 H3; [done|].
  cbn [fold_left].
  destruct (parse_line_trimmed st l H1 H2 H3) as (? & ? & ?). by apply IH.
Qed.

(** X3.  Every item the parser gives is a text that is not empty and has
    no blank at either end, whatever the response. *)
Theorem X3_items_are_trimmed_and_not_empty (cleaned_result : string) :
  Forall trimmed_nonempty (parse_items cleaned_result).
Proof.
  unfold parse_items, parse_lines.
  destruct (fold_parse_trimmed (split_lines cleaned_result) ([], EmptyString))
    as (Htt & Hh & Hr); [constructor|exact I|reflexivity|].
  destruct (fold_left parse_line _ _) as [tt cur]. cbn [fst snd] in *.
  destruct (truthy cur) eqn:Hc; [|exact Htt].
  apply Forall_app. split; [exact Htt|].
  constructor; [|constructor]. rewrite (strip_trimmed cur Hh Hr).
  split; [exact Hc|by apply strip_trimmed].
Qed.

Lemma parse_line_count (st : list string * string) (line0 : string) :
  length (parse_line st line0).1 + open_items (parse_line st line0).2
  <= length st.1 + open_items st.2
     + (if is_marker_line line0 then 1 else 0).
Proof.
  destruct st as [tt cur]. unfold parse_line, is_marker_line, open_items.
  destruct (re_match_marker (strip line0)); cbn [fst snd].
  - destruct (truthy cur); [rewrite length_app; cbn|];
      destruct (truthy (re_sub_marker (strip line0))); lia.
  - destruct (truthy cur) eqn:Hc; cbn [fst snd]; [|rewrite Hc; lia].
    destruct (truthy (strip line0)); [|rewrite Hc; lia].
    destruct cur; [discriminate|]. rewrite append_cons. cbn. lia.
Qed.

Lemma fold_parse_count (lines : list string) (st : list string * string) :
  length (fold_left parse_line lines st).1
  + open_items (fold_left parse_line lines st).2
  <= length st.1 + open_items st.2
     + length (List.filter is_marker_line lines).
Proof.
  revert st. induction lines as [|l lines IH]; intros st; cbn [fold_left];
    [cbn; lia|].
  specialize (IH (parse_line st l)). pose proof (parse_line_count st l).
  cbn [List.filter]. destruct (is_marker_line l); cbn [length]; lia.
Qed.

(** X4.  The parser never gives more items than the response has marker
    lines. *)
Theorem X4_no_more_items_than_markers (cleaned_result : string) :
  length (parse_items cleaned_result)
  <= length (List.filter is_marker_line (split_lines cleaned_result)).
Proof.
  unfold parse_items, parse_lines.
  pose proof (fold_parse_count (split_lines cleaned_result) ([], EmptyString))
    as H.
  destruct (fold_left parse_line _ _) as [tt cur]. cbn [fst snd] in H.
  unfold open_items in H. cbn in H.
  destruct (truthy cur); [rewrite length_app; cbn|]; lia.
Qed.

(** ** The alignment *)

Lemma align_from_echo (pre batch_texts : list string) :
  align_from (pre ++ List.filter nonblank batch_texts) (length pre) batch_texts
  = batch_texts.
Proof.
  revert pre. induction batch_texts as [|o rest IH]; intros pre;
    [reflexivity|].
  cbn [align_from List.filter]. fold (nonblank o).
  destruct (nonblank o).
  - rewrite lookup_app_r by lia. rewrite Nat.sub_diag. cbn. f_equal.
    specialize (IH (pre ++ [o])).
    rewrite <- app_assoc, length_app in IH. cbn in IH.
    by rewrite Nat.add_1_r in IH.
  - f_equal. apply IH.
Qed.

(** X5.  When the items are the non-blank texts of the batch themselves,
    in order, the alignment gives the batch back. *)
Theorem X5_alignment_of_echo_is_identity (batch_texts : list string) :
  _align_translations_with_inputs (List.filter nonblank batch_texts) batch_texts
  = batch_texts.
Proof. apply (align_from_echo [] batch_texts). Qed.

(** ** The loop that writes the translations back *)

(** X6.  The loop that writes the texts into the units pairs them by
    position: a text beyond the end of the batch is ignored, and a unit
    beyond the end of the texts gives no unit. *)
Theorem X6_update_pairs_by_position (batch : list Paragraph)
    (translated_texts : list string) :
  update_from batch 0 translated_texts
  = zip_with with_text batch translated_texts
  /\ length (update_from batch 0 translated_texts)
     = Nat.min (length batch) (length translated_texts).
Proof.
  rewrite update_from_zip, drop_0. split; [reflexivity|].
  apply length_zip_with.
Qed.

(** ** One batch, further *)

Lemma translate_batch_blank (config : gmap string value) (backend : Backend)
    (texts ts : list string) (k j : nat) (sent : list Task) (o : string) :
  translate_batch config backend texts k = Ok (ts, sent) ->
  texts !! j = Some o -> nonblank o = false -> ts !! j = Some o.
Proof.
  unfold translate_batch. intros H Hj Ho.
  destruct (number_texts 1 texts); [by inversion H; subst|].
  destruct (_create_translation_task config _) as [task|]; cbn in H;
    [|discriminate].
  destruct (backend k task) as [raw|]; inversion H; subst; [|exact Hj].
  unfold _parse_translation_result, _align_translations_with_inputs.
  rewrite align_from_lookup, Hj. cbn. unfold aligned_text. by rewrite Ho.
Qed.

Lemma translate_batch_calls (config : gmap string value) (backend : Backend)
    (texts ts : list string) (k : nat) (sent : list Task) :
  translate_batch config backend texts k = Ok (ts, sent) ->
  length sent = if count_nonblank texts =? 0 then 0 else 1.
Proof.
  unfold translate_batch. rewrite (number_texts_entries texts 1).
  fold (prompt_entries texts). intros H.
  destruct (prompt_entries texts) as [|e es] eqn:He.
  - apply prompt_entries_nil in He. rewrite He. by inversion H.
  - assert (count_nonblank texts <> 0) as Hn.
    { intros H0. apply prompt_entries_nil in H0. congruence. }
    apply Nat.eqb_neq in Hn. rewrite Hn.
    destruct (_create_translation_task config _) as [task|]; cbn in H;
      [|discriminate].
    destruct (backend k task); by inversion H.
Qed.

(** ** The batch processor, further *)

Section ProcessorFurther.
Variable config : gmap string value.
Variable backend : Backend.
Variable lang : value.
Hypothesis Hlang : config !! "target_language" = Some lang.
Variable bs : nat.
Hypothesis Hbs : 0 < bs.
Variable ps : list Paragraph.

Lemma batch_calls_length (k : nat) :
  length (batch_calls config backend bs ps k)
  = if batch_has_text bs ps k then 1 else 0.
Proof using Hlang.
  unfold batch_calls, batch_has_text.
  destruct (translate_batch_total config backend lang
              (map text (batch_at bs ps k)) k Hlang) as (ts & snt & Ht).
  rewrite Ht. rewrite (translate_batch_calls _ _ _ _ _ _ Ht).
  by destruct (count_nonblank _ =? 0).
Qed.

Lemma all_calls_length (ks : list nat) :
  length (concat (map (batch_calls config backend bs ps) ks))
  = length (List.filter (batch_has_text bs ps) ks).
Proof using Hlang.
  induction ks as [|k ks IH]; [reflexivity|].
  cbn [map concat List.filter]. rewrite length_app, batch_calls_length, IH.
  by destruct (batch_has_text bs ps k).
Qed.

Lemma unit_of_blank (i : nat) (p : Paragraph) :
  ps !! i = Some p -> nonblank (text p) = false ->
  batch_units config backend bs ps (i / bs) !! (i mod bs) = Some p.
Proof using Hlang Hbs.
  intros Hp Hblank. unfold batch_units, batch_result.
  destruct (translate_batch_total config backend lang
              (map text (batch_at bs ps (i / bs))) (i / bs) Hlang)
    as (ts & snt & Ht).
  rewrite Ht. apply lookup_zip_with_Some. exists p, (text p).
  split; [by rewrite with_text_same|].
  assert (batch_at bs ps (i / bs) !! (i mod bs) = Some p) as Hb
    by (by rewrite batch_at_lookup).
  split; [exact Hb|].
  apply (translate_batch_blank _ _ _ _ _ _ _ _ Ht); [|exact Hblank].
  by rewrite list_lookup_fmap, Hb.
Qed.

Lemma unit_of_failure (i : nat) :
  (forall task, backend (i / bs) task = None) ->
  batch_units config backend bs ps (i / bs) !! (i mod bs) = ps !! i.
Proof using Hlang Hbs.
  intros Hfail. unfold batch_units, batch_result.
  destruct (translate_batch_total config backend lang
              (map text (batch_at bs ps (i / bs))) (i / bs) Hlang)
    as (ts & snt & Ht).
  rewrite Ht.
  rewrite (translate_batch_failure _ _ _ _ _ _ Hfail Ht), zip_with_text_id.
  by apply batch_at_lookup.
Qed.

End ProcessorFurther.

(** X7.  With a target language, a positive batch size and a delay
    that [time.sleep] accepts, the backend is called once for each batch
    that has a text to translate and never for a batch of blank texts; so
    it is called at most once per batch. *)
Theorem X7_one_call_per_batch_with_text (config : gmap string value)
    (backend : Backend) (lang : value) (z : Z) (ps : list Paragraph) :
  config !! "target_language" = Some lang ->
  configured_batch_size config = Ok z ->
  (0 < z)%Z ->
  delay_accepted config ->
  exists out sent,
    process_paragraphs config backend ps = Ok (out, sent)
    /\ length sent
       = length (List.filter (batch_has_text (Z.to_nat z) ps)
                   (seq 0 (batch_count (length ps) (Z.to_nat z))))
    /\ length sent <= batch_count (length ps) (Z.to_nat z).
Proof.
  intros Hlang Hsize Hpos Hdelay. eexists _, _. split.
  { by apply (process_paragraphs_batches config backend lang Hlang z Hsize Hpos). }
  fold (batch_count (length ps) (Z.to_nat z)).
  rewrite (all_calls_length config backend lang Hlang).
  split; [reflexivity|].
  etransitivity; [apply List.filter_length_le|]. by rewrite length_seq.
Qed.

Lemma X7_witness :
  exists out sent,
    process_paragraphs Config.DEFAULT_CONFIG failing_backend
      [plain_paragraph 0 "a"; plain_paragraph 1 " "; plain_paragraph 2 " ";
       plain_paragraph 3 EmptyString; plain_paragraph 4 "b"]
    = Ok (out, sent)
    /\ length sent
       = length (List.filter
                   (batch_has_text (Z.to_nat 2)
                      [plain_paragraph 0 "a"; plain_paragraph 1 " ";
                       plain_paragraph 2 " "; plain_paragraph 3 EmptyString;
                       plain_paragraph 4 "b"])
                   (seq 0 (batch_count 5 (Z.to_nat 2))))
    /\ length sent <= batch_count 5 (Z.to_nat 2).
Proof.
  apply (X7_one_call_per_batch_with_text Config.DEFAULT_CONFIG failing_backend
           (VStr "Hindi") 2).
  - reflexivity.
  - reflexivity.
  - lia.
  - reflexivity.
Defined.

(** X8.  With a target language, a positive batch size and a delay
    that [time.sleep] accepts, a unit whose text is blank comes out of the
    processor as it went in, at the same position, whatever the backend
    answers. *)
Theorem X8_blank_units_pass_unchanged (config : gmap string value)
    (backend : Backend) (lang : value) (z : Z) (ps : list Paragraph) :
  config !! "target_language" = Some lang ->
  configured_batch_size config = Ok z ->
  (0 < z)%Z ->
  delay_accepted config ->
  exists out sent,
    process_paragraphs config backend ps = Ok (out, sent)
    /\ forall (i : nat) (p : Paragraph),
         ps !! i = Some p -> nonblank (text p) = false -> out !! i = Some p.
Proof.
  intros Hlang Hsize Hpos Hdelay. eexists _, _. split.
  { by apply (process_paragraphs_batches config backend lang Hlang z Hsize Hpos). }
  intros i p Hp Hblank.
  rewrite (all_units_lookup config backend lang Hlang) by lia.
  apply (unit_of_blank config backend lang Hlang); [lia|done|done].
Qed.

Lemma X8_witness :
  exists out sent,
    process_paragraphs Config.DEFAULT_CONFIG (fun _ _ => Some "1. x")
      [plain_paragraph 0 "a"; plain_paragraph 1 " "] = Ok (out, sent)
    /\ forall (i : nat) (p : Paragraph),
         [plain_paragraph 0 "a"; plain_paragraph 1 " "] !! i = Some p ->
         nonblank (text p) = false -> out !! i = Some p.
Proof.
  apply (X8_blank_units_pass_unchanged Config.DEFAULT_CONFIG
           (fun _ _ => Some "1. x") (VStr "Hindi") 2).
  - reflexivity.
  - reflexivity.
  - lia.
  - reflexivity.
Defined.

(** X9.  With a target language, a positive batch size and a delay
    that [time.sleep] accepts, when every call to the backend raises, the
    processor returns the units it was given. *)
Theorem X9_all_calls_fail_gives_input (config : gmap string value)
    (backend : Backend) (lang : value) (z : Z) (ps : list Paragraph) :
  config !! "target_language" = Some lang ->
  configured_batch_size config = Ok z ->
  (0 < z)%Z ->
  delay_accepted config ->
  (forall k task, backend k task = None) ->
  exists sent, process_paragraphs config backend ps = Ok (ps, sent).
Proof.
  intros Hlang Hsize Hpos Hdelay Hfail.
  rewrite (process_paragraphs_batches config backend lang Hlang z Hsize Hpos)
    by exact Hdelay.
  eexists. f_equal. f_equal. apply list_eq. intros i.
  rewrite (all_units_lookup config backend lang Hlang) by lia.
  apply (unit_of_failure config backend lang Hlang); [lia|].
  intros task. apply Hfail.
Qed.

Lemma X9_witness :
  exists sent,
    process_paragraphs Config.DEFAULT_CONFIG failing_backend
      [plain_paragraph 0 "a"; plain_paragraph 1 "b"; plain_paragraph 2 "c"]
    = Ok ([plain_paragraph 0 "a"; plain_paragraph 1 "b"; plain_paragraph 2 "c"],
          sent).
Proof.
  apply (X9_all_calls_fail_gives_input Config.DEFAULT_CONFIG failing_backend
           (VStr "Hindi") 2).
  - reflexivity.
  - reflexivity.
  - lia.
  - reflexivity.
  - reflexivity.
Defined.

(** ** The analysis of a paragraph, further *)

Lemma fold_analyze_bold (rs : list Run) (s : Paragraph) :
  is_bold (fold_left analyze_run rs s) = is_bold s || existsb run_is_bold rs.
Proof.
  revert s. induction rs as [|r rs IH]; intros s; cbn [fold_left existsb].
  - by rewrite orb_false_r.
  - rewrite IH. unfold run_is_bold at 2. cbn [analyze_run is_bold].
    destruct (bold r) as [[]|], (is_bold s); reflexivity.
Qed.

Lemma fold_analyze_italic (rs : list Run) (s : Paragraph) :
  is_italic (fold_left analyze_run rs s)
  = is_italic s || existsb run_is_italic rs.
Proof.
  revert s. induction rs as [|r rs IH]; intros s; cbn [fold_left existsb].
  - by rewrite orb_false_r.
  - rewrite IH. unfold run_is_italic at 2. cbn [analyze_run is_italic].
    destruct (italic r) as [[]|], (is_italic s); reflexivity.
Qed.

(** X10.  The analysis marks a paragraph bold exactly when one of its runs
    is explicitly bold, and italic exactly when one of its runs is
    explicitly italic; a run whose attribute is off or inherited does not
    count. *)
Theorem X10_bold_and_italic_of_any_run (paragraph : DocxParagraph) :
  is_bold (analyze_paragraph_structure paragraph)
  = existsb run_is_bold (runs paragraph)
  /\ is_italic (analyze_paragraph_structure paragraph)
     = existsb run_is_italic (runs paragraph).
Proof.
  unfold analyze_paragraph_structure.
  by rewrite fold_analyze_bold, fold_analyze_italic.
Qed.

Lemma fold_analyze_frame (rs : list Run) (s : Paragraph) :
  text (fold_left analyze_run rs s) = text s
  /\ alignment (fold_left analyze_run rs s) = alignment s
  /\ style_name (fold_left analyze_run rs s) = style_name s
  /\ has_numbering (fold_left analyze_run rs s) = has_numbering s
  /\ indent_level (fold_left analyze_run rs s) = indent_level s
  /\ index (fold_left analyze_run rs s) = index s.
Proof.
  revert s. induction rs as [|r rs IH]; intros s; [done|].
  cbn [fold_left]. destruct (IH (analyze_run s r)) as (-> & -> & -> & -> & -> & ->).
  done.
Qed.

(** X11.  Whatever the runs of the paragraph are, the analysis never
    reports a numbering and always reports the indent level 0; the text,
    the alignment and the style name (Normal when the paragraph has no
    style) are those of the paragraph, and no index is set yet. *)
Theorem X11_fields_the_runs_never_change (paragraph : DocxParagraph) :
  let s := analyze_paragraph_structure paragraph in
  has_numbering s = false
  /\ indent_level s = 0
  /\ text s = Docx.paragraph_text paragraph
  /\ alignment s = par_alignment paragraph
  /\ style_name s = default "Normal" (par_style paragraph)
  /\ index s = None.
Proof.
  cbn zeta. unfold analyze_paragraph_structure.
  destruct (fold_analyze_frame (runs paragraph)
    {| text := Docx.paragraph_text paragraph; is_bold := false;
       is_italic := false; alignment := par_alignment paragraph;
       style_name := default "Normal" (par_style paragraph);
       has_numbering := false; indent_level := 0; has_image := false;
       image_data := None; index := None |})
    as (-> & -> & -> & -> & -> & ->).
  done.
Qed.

(** ** The catalog of images *)

Lemma prefix_empty (s : string) : String.prefix EmptyString s = true.
Proof. by destruct s. Qed.

Lemma contains_slash_cons (c : ascii) (s : string) :
  contains "/" (String c s) = Ascii.eqb c "/" || contains "/" s.
Proof.
  cbn [contains String.prefix]. rewrite prefix_empty.
  destruct (ascii_dec "/" c) as [<-|Hne]; [reflexivity|].
  destruct (Ascii.eqb_spec c "/") as [->|_]; [by destruct Hne|reflexivity].
Qed.

(** X12.  The text after the last slash of a string has no slash and is
    the end of the string: what comes before it is empty or ends with a
    slash. *)
Theorem X12_after_last_slash (s : string) :
  contains "/" (after_last_slash s) = false
  /\ exists pre,
       s = pre +:+ after_last_slash s
       /\ (pre = EmptyString \/ exists pre', pre = pre' +:+ "/").
Proof.
  induction s as [|c s (Hno & pre & Hs & Hpre)].
  - split; [reflexivity|]. exists EmptyString. by split; [|left].
  - cbn [after_last_slash]. rewrite <- contains_slash_cons.
    destruct (contains "/" (String c s)) eqn:Hc.
    + split; [exact Hno|]. exists (String c pre).
      split; [by rewrite append_cons, <- Hs|]. right.
      destruct Hpre as [->|[pre' ->]].
      * exists EmptyString. change (EmptyString +:+ after_last_slash s)
          with (after_last_slash s) in Hs.
        rewrite <- Hs in Hno.
        rewrite contains_slash_cons, Hno, orb_false_r in Hc.
        apply Ascii.eqb_eq in Hc. by subst c.
      * exists (String c pre'). by rewrite append_cons.
    + split; [exact Hc|]. exists EmptyString. by split; [|left].
Qed.

Lemma extract_image_step (m : gmap string ImageInfo) (c : nat)
    (item : string * Part) :
  extract_image (m, c) item
  = if is_image_part item
    then (<[ item.1 := image_entry c item.2 ]> m, S c)
    else (m, c).
Proof. by destruct item. Qed.

Lemma fold_extract_images (parts : list (string * Part))
    (m : gmap string ImageInfo) (c : nat) :
  NoDup (map fst parts) ->
  (forall id, In id (map fst parts) -> m !! id = None) ->
  let st := fold_left extract_image parts (m, c) in
  (forall k id part,
     List.filter is_image_part parts !! k = Some (id, part) ->
     st.1 !! id = Some (image_entry (c + k) part))
  /\ (forall id,
        ~ In id (map fst (List.filter is_image_part parts)) ->
        st.1 !! id = m !! id)
  /\ size st.1 = size m + length (List.filter is_image_part parts).
Proof.
  revert m c. induction parts as [|[id0 part0] parts IH]; intros m c Hnd Hfresh.
  - cbn. split; [by intros k id part H|]. split; [done|lia].
  - cbn zeta. cbn [fold_left]. rewrite extract_image_step.
    cbn [map fst] in Hnd. apply NoDup_cons in Hnd as [Hnotin Hnd].
    assert (~ In id0 (map fst parts)) as Hnotin'
      by (by rewrite <- list_elem_of_In).
    assert (~ In id0 (map fst (List.filter is_image_part parts))) as Hnf.
    { intros Hin. apply Hnotin'. apply in_map_iff in Hin as (x & Hx & Hin).
      apply List.filter_In in Hin as [Hin _]. apply in_map_iff. eauto. }
    cbn [List.filter]. destruct (is_image_part (id0, part0)) eqn:Himg.
    + cbn [fst snd].
      destruct (IH (<[id0 := image_entry c part0]> m) (S c) Hnd)
        as (Hk & Hother & Hsize).
      { intros id Hin. rewrite lookup_insert_ne; [|congruence].
        apply Hfresh. by right. }
      split; [|split].
      * intros [|k] id part Hl; cbn in Hl.
        -- inversion Hl; subst. rewrite Hother by exact Hnf.
           rewrite lookup_insert_eq. by rewrite Nat.add_0_r.
        -- rewrite (Hk k id part Hl). f_equal. f_equal. lia.
      * intros id Hid. cbn [map fst In] in Hid.
        rewrite Hother by tauto. apply lookup_insert_ne. tauto.
      * rewrite Hsize. rewrite map_size_insert_None; [cbn; lia|].
        apply Hfresh. by left.
    + destruct (IH m c Hnd) as (Hk & Hother & Hsize).
      { intros id Hin. apply Hfresh. by right. }
      done.
Qed.

(** X13.  When the related parts of the document have distinct
    identifiers, the catalog holds exactly the parts whose content type
    names an image: the image part number [k] (counted from 0 among the
    image parts) is found under its identifier, with its data, its
    content type and the file name image_[k].[subtype]; no other
    identifier is in the catalog, whose size is the number of image
    parts. *)
Theorem X13_catalog_of_image_parts (doc : Document) :
  NoDup (map fst (related_parts doc)) ->
  let catalog := extract_images_from_document doc in
  (forall k id part,
     image_parts doc !! k = Some (id, part) ->
     catalog !! id = Some (image_entry k part))
  /\ (forall id, ~ In id (map fst (image_parts doc)) -> catalog !! id = None)
  /\ size catalog = length (image_parts doc).
Proof.
  intros Hnd. cbn zeta. unfold extract_images_from_document, image_parts.
  destruct (fold_extract_images (related_parts doc) ∅ 0 Hnd)
    as (Hk & Hother & Hsize); [by intros|].
  split; [exact Hk|]. split.
  - intros id Hid. by rewrite Hother.
  - by rewrite Hsize, map_size_empty.
Qed.

Lemma X13_witness :
  (forall k id part,
     image_parts document_with_parts !! k = Some (id, part) ->
     extract_images_from_document document_with_parts !! id
     = Some (image_entry k part))
  /\ (forall id,
        ~ In id (map fst (image_parts document_with_parts)) ->
        extract_images_from_document document_with_parts !! id = None)
  /\ size (extract_images_from_document document_with_parts)
     = length (image_parts document_with_parts).
Proof.
  apply (X13_catalog_of_image_parts document_with_parts).
  apply (bool_decide_unpack
           (NoDup (map fst (related_parts document_with_parts)))).
  vm_compute. reflexivity.
Defined.

(** ** Tables *)






(** ** The reader *)

Lemma read_paragraphs_cons (j : nat) (dp : DocxParagraph)
    (rest : list DocxParagraph) :
  DocumentReader.read_paragraphs j (dp :: rest)
  = if kept_by_reader dp
    then unit_read j dp :: DocumentReader.read_paragraphs (S j) rest
    else DocumentReader.read_paragraphs (S j) rest.
Proof. reflexivity. Qed.

Lemma read_paragraphs_In (dps : list DocxParagraph) (j : nat) (p : Paragraph) :
  In p (DocumentReader.read_paragraphs j dps)
  <-> exists i dp,
        dps !! i = Some dp /\ kept_by_reader dp = true
        /\ p = unit_read (j + i) dp.
Proof.
  revert j. induction dps as [|dp rest IH]; intros j.
  - cbn. split; [done|]. by intros (i & dp & H & _).
  - rewrite read_paragraphs_cons. split.
    + intros Hin.
      assert (In p (DocumentReader.read_paragraphs (S j) rest) ->
              exists i dp0, (dp :: rest) !! i = Some dp0
                            /\ kept_by_reader dp0 = true
                            /\ p = unit_read (j + i) dp0) as Hrest.
      { intros H. apply IH in H as (i & dp0 & Hi & Hk & ->).
        exists (S i), dp0. repeat split; [done|done|]. f_equal. lia. }
      destruct (kept_by_reader dp) eqn:Hk; [|by apply Hrest].
      destruct Hin as [<-|Hin]; [|by apply Hrest].
      exists 0, dp. rewrite Nat.add_0_r. done.
    + intros (i & dp0 & Hi & Hk & ->). destruct i as [|i]; cbn in Hi.
      * inversion Hi; subst. rewrite Hk, Nat.add_0_r. by left.
      * assert (In (unit_read (j + S i) dp0)
                  (DocumentReader.read_paragraphs (S j) rest)) as H.
        { apply IH. exists i, dp0. repeat split; [done|done|]. f_equal. lia. }
        destruct (kept_by_reader dp); [by right|done].
Qed.

Lemma read_paragraphs_increasing (dps : list DocxParagraph) (j j1 j2 : nat)
    (p1 p2 : Paragraph) :
  j1 < j2 ->
  DocumentReader.read_paragraphs j dps !! j1 = Some p1 ->
  DocumentReader.read_paragraphs j dps !! j2 = Some p2 ->
  exists i1 i2, index p1 = Some i1 /\ index p2 = Some i2 /\ j <= i1 < i2.
Proof.
  revert j j1 j2. induction dps as [|dp rest IH]; intros j j1 j2 Hlt H1 H2;
    [done|].
  rewrite read_paragraphs_cons in H1, H2.
  destruct (kept_by_reader dp).
  - destruct j2 as [|j2]; [lia|]. cbn in H2. destruct j1 as [|j1]; cbn in H1.
    + inversion H1; subst.
      apply list_elem_of_lookup_2, list_elem_of_In, read_paragraphs_In in H2
        as (i & dp2 & _ & _ & ->).
      exists j, (S j + i). cbn. repeat split; lia.
    + destruct (IH (S j) j1 j2 ltac:(lia) H1 H2) as (i1 & i2 & ? & ? & ?).
      exists i1, i2. repeat split; try done; lia.
  - destruct (IH (S j) j1 j2 Hlt H1 H2) as (i1 & i2 & ? & ? & ?).
    exists i1, i2. repeat split; try done; lia.
Qed.

(** X15.  The reader keeps exactly the paragraphs that have a text or an
    image: each unit it gives is the analysis of one such paragraph and
    carries the position of that paragraph in the document as its index.
    The indices grow strictly along the units, so no two units share
    one. *)
Theorem X15_reader_keeps_text_or_image (doc : Document) :
  let units := paragraphs (DocumentReader.read doc) in
  (forall p,
     In p units
     <-> exists i dp,
           doc_paragraphs doc !! i = Some dp /\ kept_by_reader dp = true
           /\ p = unit_read i dp)
  /\ (forall j1 j2 p1 p2,
        j1 < j2 -> units !! j1 = Some p1 -> units !! j2 = Some p2 ->
        exists i1 i2, index p1 = Some i1 /\ index p2 = Some i2 /\ i1 < i2).
Proof.
  cbn. split.
  - intros p. apply (read_paragraphs_In (doc_paragraphs doc) 0 p).
  - intros j1 j2 p1 p2 Hlt H1 H2.
    destruct (read_paragraphs_increasing _ 0 j1 j2 p1 p2 Hlt H1 H2)
      as (i1 & i2 & ? & ? & ?).
    exists i1, i2. repeat split; try done; lia.
Qed.

(** ** The update of a paragraph, further *)

Lemma keeps_runs_refl (rs : list Run) : keeps_runs rs rs.
Proof. split; [lia|]. intros i r Hi. by exists r. Qed.

Lemma keeps_runs_same_length (rs1 rs2 rs3 : list Run) :
  length rs2 = length rs1 ->
  keeps_runs rs1 rs2 -> keeps_runs rs2 rs3 -> keeps_runs rs1 rs3.
Proof.
  intros Hlen [_ H1] [L2 H2]. split; [lia|].
  intros i r Hi. destruct (H1 i r Hi) as (r1 & Hr1 & Hb1 & Hi1).
  destruct (H2 i r1 Hr1) as (r2 & Hr2 & Hb2 & Hi2).
  exists r2. split; [done|]. split; congruence.
Qed.

Lemma keeps_runs_cleared (rs : list Run) :
  keeps_runs rs
    (map (fun run => if has_pic run then run else Docx.set_text run EmptyString)
         rs)
  /\ length (map (fun run => if has_pic run then run
                             else Docx.set_text run EmptyString) rs)
     = length rs.
Proof.
  split; [|apply length_map]. split; [rewrite length_map; lia|].
  intros i r Hi. rewrite list_lookup_fmap, Hi. cbn.
  eexists. split; [reflexivity|]. by destruct (has_pic r).
Qed.

Lemma keeps_runs_add (rs : list Run) (t : string) :
  keeps_runs rs (rs ++ [Docx.new_run t]).
Proof.
  split; [rewrite length_app; cbn; lia|].
  intros i r Hi. exists r. split; [by apply lookup_app_l_Some|done].
Qed.

Lemma keeps_runs_first_text_run (rs rs' : list Run) (t : string) :
  set_first_text_run rs t = Some rs' ->
  keeps_runs rs rs' /\ length rs' = length rs.
Proof.
  revert rs'. induction rs as [|r rs IH]; intros rs'; cbn; [discriminate|].
  destruct (has_pic r).
  - destruct (set_first_text_run rs t) as [rs0|]; cbn; [|discriminate].
    intros [= <-]. destruct (IH rs0 eq_refl) as [[L H] Hlen].
    split; [|cbn; lia]. split; [cbn; lia|].
    intros [|i] r0 Hi; cbn in *; [|by apply H].
    inversion Hi; subst. by exists r0.
  - intros [= <-]. split; [|reflexivity]. split; [cbn; lia|].
    intros [|i] r0 Hi; cbn in *.
    + inversion Hi; subst. eexists. by split.
    + by exists r0.
Qed.

Lemma update_paragraph_keeps_runs (paragraph : DocxParagraph)
    (trans_para : Paragraph) :
  keeps_runs (runs paragraph)
    (runs (_update_paragraph_text paragraph trans_para)).
Proof.
  unfold _update_paragraph_text.
  destruct (keeps_runs_cleared (runs paragraph)) as [Hc Hlen].
  set (cleared := map _ (runs paragraph)) in *.
  destruct (truthy (strip (text trans_para)) && negb (has_image trans_para)).
  - assert (keeps_runs (runs paragraph)
              (runs (Docx.add_run (Docx.with_runs paragraph cleared)
                       (text trans_para)))) as Hadd.
    { cbn. destruct (keeps_runs_add cleared (text trans_para)) as [L H].
      split; [lia|]. intros i r Hi.
      destruct (proj2 Hc i r Hi) as (r1 & Hr1 & ? & ?).
      destruct (H i r1 Hr1) as (r2 & Hr2 & ? & ?).
      exists r2. split; [done|]. split; congruence. }
    destruct cleared as [|c cs] eqn:Ecl; [exact Hadd|].
    destruct (set_first_text_run (c :: cs) (text trans_para)) as [rs|] eqn:Hs;
      [|exact Hadd].
    cbn [Docx.with_runs runs].
    apply keeps_runs_first_text_run in Hs as [Hk _].
    by eapply keeps_runs_same_length.
  - destruct (truthy (strip (text trans_para)) && has_image trans_para);
      [|apply keeps_runs_refl].
    destruct (set_first_text_run (runs paragraph) (text trans_para))
      as [rs|] eqn:Hs; cbn.
    + by apply keeps_runs_first_text_run in Hs as [Hk _].
    + apply keeps_runs_add.
Qed.

Lemma update_paragraph_style (paragraph : DocxParagraph)
    (trans_para : Paragraph) :
  par_alignment (_update_paragraph_text paragraph trans_para)
  = par_alignment paragraph
  /\ par_style (_update_paragraph_text paragraph trans_para)
     = par_style paragraph.
Proof.
  unfold _update_paragraph_text.
  repeat match goal with
         | |- context [if ?b then _ else _] => destruct b
         | |- context [match ?x with _ => _ end] => destruct x
         end; done.
Qed.

(** X16.  The update of a paragraph never removes a run and adds at most
    one, at the end; every run that was there keeps its place and its bold
    and italic attributes, and the paragraph keeps its alignment and its
    style.  A unit whose text is blank changes nothing at all. *)
Theorem X16_update_keeps_runs_and_format (paragraph : DocxParagraph)
    (trans_para : Paragraph) :
  let updated := _update_paragraph_text paragraph trans_para in
  keeps_runs (runs paragraph) (runs updated)
  /\ par_alignment updated = par_alignment paragraph
  /\ par_style updated = par_style paragraph
  /\ (nonblank (text trans_para) = false -> updated = paragraph).
Proof.
  cbn zeta. split; [apply update_paragraph_keeps_runs|].
  destruct (update_paragraph_style paragraph trans_para) as [-> ->].
  split; [reflexivity|]. split; [reflexivity|].
  unfold nonblank, _update_paragraph_text. by intros ->.
Qed.

Lemma X16_witness :
  _update_paragraph_text
    (paragraph_of [text_run "Old text"; picture_run "rId7"])
    (with_text
       (unit_read 0 (paragraph_of [text_run "Old text"; picture_run "rId7"]))
       "  ")
  = paragraph_of [text_run "Old text"; picture_run "rId7"].
Proof.
  apply (X16_update_keeps_runs_and_format
           (paragraph_of [text_run "Old text"; picture_run "rId7"])
           (with_text
              (unit_read 0
                 (paragraph_of [text_run "Old text"; picture_run "rId7"]))
              "  ")).
  reflexivity.
Defined.

Lemma map_cleared_no_pictures (rs : list Run) :
  Forall (fun run => has_pic run = false) rs ->
  map (fun run => if has_pic run then run else Docx.set_text run EmptyString) rs
  = map (fun run => Docx.set_text run EmptyString) rs.
Proof.
  intros H. induction H as [|r rs Hr _ IH]; [reflexivity|].
  cbn. by rewrite Hr, IH.
Qed.

Lemma texts_of_cleared_runs (rs : list Run) :
  map run_text (map (fun run => Docx.set_text run EmptyString) rs)
  = map (fun _ => EmptyString) rs.
Proof. induction rs as [|r rs IH]; [reflexivity|]. cbn. by rewrite IH. Qed.

(** X17.  For a paragraph without pictures and a unit without image whose
    text is not blank and is one the library accepts, the update puts the
    text of the unit, as the library stores it, in the first run and
    empties every other run; a paragraph without runs gets one run with
    that text.  No run keeps its old text. *)
Theorem X17_text_goes_to_the_first_run (paragraph : DocxParagraph)
    (trans_para : Paragraph) :
  Forall (fun run => has_pic run = false) (runs paragraph) ->
  has_image trans_para = false ->
  nonblank (text trans_para) = true ->
  Docx.accepts (text trans_para) = true ->
  map run_text (runs (_update_paragraph_text paragraph trans_para))
  = Docx.stored_text (text trans_para)
    :: map (fun _ => EmptyString) (tail (runs paragraph)).
Proof.
  intros Hnp Himg Htext _. unfold nonblank in Htext.
  unfold _update_paragraph_text. rewrite Htext, Himg. cbn [andb negb].
  rewrite (map_cleared_no_pictures _ Hnp).
  destruct (runs paragraph) as [|r rs] eqn:Hruns.
  - reflexivity.
  - cbn [map set_first_text_run Docx.set_text has_pic].
    cbn [Docx.with_runs runs map run_text tail].
    by rewrite texts_of_cleared_runs.
Qed.

Lemma X17_witness :
  map run_text
    (runs (_update_paragraph_text
             (paragraph_of [text_run "Hello "; text_run "world."])
             (plain_paragraph 0 "Bonjour le monde.")))
  = ["Bonjour le monde."; EmptyString].
Proof.
  apply (X17_text_goes_to_the_first_run
           (paragraph_of [text_run "Hello "; text_run "world."])
           (plain_paragraph 0 "Bonjour le monde.")).
  - repeat constructor.
  - reflexivity.
  - reflexivity.
  - reflexivity.
Defined.

(** ** The update of the original document *)

Lemma index_paragraphs_lookup (units : list Paragraph) (j : nat)
    (m : gmap nat Paragraph) (i : nat) :
  index_paragraphs j units m !! i
  = match last (List.filter
                  (fun it : nat * Paragraph => default it.1 (index it.2) =? i)
                  (zip (seq j (length units)) units)) with
    | Some it => Some it.2
    | None => m !! i
    end.
Proof.
  revert j m. induction units as [|u units IH]; intros j m; [reflexivity|].
  cbn [index_paragraphs length seq zip zip_with List.filter fst snd].
  rewrite IH. destruct (Nat.eqb_spec (default j (index u)) i) as [->|Hne].
  - rewrite last_cons. destruct (last _); [reflexivity|].
    by rewrite lookup_insert_eq.
  - destruct (last _); [reflexivity|]. by rewrite lookup_insert_ne.
Qed.

Lemma update_original_lookup (translated_content : Content) (doc : Document)
    (i : nat) :
  doc_paragraphs (_update_original_document translated_content doc) !! i
  = (fun paragraph =>
       match unit_for (paragraphs translated_content) i with
       | Some trans_para => _update_paragraph_text paragraph trans_para
       | None => paragraph
       end) <$> doc_paragraphs doc !! i.
Proof.
  unfold _update_original_document. cbn [doc_paragraphs].
  rewrite list_lookup_imap. destruct (doc_paragraphs doc !! i); [|reflexivity].
  cbn. rewrite index_paragraphs_lookup, lookup_empty. unfold unit_for.
  by destruct (last _).
Qed.

(** X18.  In the update of the original document, the paragraph at
    position [i] is updated with the last unit whose index is [i] (its
    position in the list when it has no index), and a paragraph that no
    unit names is left as it is. *)
Theorem X18_last_unit_with_the_index_is_written (translated_content : Content)
    (doc : Document) (i : nat) :
  doc_paragraphs (_update_original_document translated_content doc) !! i
  = (fun paragraph =>
       match unit_for (paragraphs translated_content) i with
       | Some trans_para => _update_paragraph_text paragraph trans_para
       | None => paragraph
       end) <$> doc_paragraphs doc !! i.
Proof. apply update_original_lookup. Qed.

(** X19.  The update of the original document adds and removes nothing:
    the document keeps its number of paragraphs, its tables and its
    related parts, and every paragraph keeps its alignment, its style,
    its runs with their bold and italic attributes, and its pictures. *)
Theorem X19_update_keeps_structure (translated_content : Content)
    (doc : Document) :
  let updated := _update_original_document translated_content doc in
  length (doc_paragraphs updated) = length (doc_paragraphs doc)
  /\ doc_tables updated = doc_tables doc
  /\ related_parts updated = related_parts doc
  /\ forall (i : nat) (paragraph : DocxParagraph),
       doc_paragraphs doc !! i = Some paragraph ->
       exists paragraph',
         doc_paragraphs updated !! i = Some paragraph'
         /\ keeps_pictures (runs paragraph) (runs paragraph')
         /\ keeps_runs (runs paragraph) (runs paragraph')
         /\ par_alignment paragraph' = par_alignment paragraph
         /\ par_style paragraph' = par_style paragraph.
Proof.
  cbn zeta. split; [cbn; apply length_imap|].
  split; [reflexivity|]. split; [reflexivity|].
  intros i paragraph Hi. rewrite update_original_lookup, Hi. cbn.
  eexists. split; [reflexivity|].
  destruct (unit_for (paragraphs translated_content) i) as [u|].
  - split; [apply update_paragraph_keeps_pictures|].
    split; [apply update_paragraph_keeps_runs|].
    apply update_paragraph_style.
  - split; [apply keeps_pictures_refl|]. split; [apply keeps_runs_refl|done].
Qed.

(** ** The document built anew *)

Lemma analyze_new_paragraph (u : Paragraph) :
  let s := analyze_paragraph_structure (new_paragraph u) in
  text s = (if nonblank (text u) then Docx.stored_text (text u)
            else EmptyString)
  /\ is_bold s = nonblank (text u) && is_bold u
  /\ is_italic s = nonblank (text u) && is_italic u
  /\ has_image s = false
  /\ image_data s = None.
Proof.
  cbn zeta. unfold analyze_paragraph_structure, new_paragraph, nonblank.
  unfold Docx.paragraph_text. cbn [runs].
  destruct (truthy (strip (text u))); cbn; [|done].
  by destruct (is_bold u), (is_italic u).
Qed.

(** X20.  When the library refuses no text of the content, a document
    built anew has one paragraph for each unit, in order, and no picture
    in any run, so the images are lost.  Read again, the paragraph of a
    unit whose text is not blank gives that text as the library stores
    it, bold and italic as the unit was; the paragraph of a unit whose
    text is blank is empty and neither bold nor italic. *)
Theorem X20_new_document_has_text_and_no_picture
    (translated_content : Content) :
  create_refused translated_content = false ->
  let doc := _create_new_document translated_content in
  length (doc_paragraphs doc) = length (paragraphs translated_content)
  /\ Forall (fun paragraph =>
               Forall (fun run => has_pic run = false) (runs paragraph))
            (doc_paragraphs doc)
  /\ forall (i : nat) (u : Paragraph),
       paragraphs translated_content !! i = Some u ->
       exists paragraph,
         doc_paragraphs doc !! i = Some paragraph
         /\ let s := analyze_paragraph_structure paragraph in
            text s = (if nonblank (text u) then Docx.stored_text (text u)
                      else EmptyString)
            /\ is_bold s = nonblank (text u) && is_bold u
            /\ is_italic s = nonblank (text u) && is_italic u
            /\ has_image s = false
            /\ image_data s = None.
Proof.
  intros _. cbn zeta. cbn [_create_new_document doc_paragraphs].
  split; [apply length_map|]. split.
  - apply Forall_fmap, Forall_forall. intros u _. cbn.
    destruct (truthy (strip (text u))); repeat constructor.
  - intros i u Hi. exists (new_paragraph u).
    split; [by rewrite list_lookup_fmap, Hi|]. apply analyze_new_paragraph.
Qed.

Lemma X20_witness :
  let doc := _create_new_document (DocumentReader.read sample_document) in
  length (doc_paragraphs doc)
  = length (paragraphs (DocumentReader.read sample_document))
  /\ Forall (fun paragraph =>
               Forall (fun run => has_pic run = false) (runs paragraph))
            (doc_paragraphs doc)
  /\ forall (i : nat) (u : Paragraph),
       paragraphs (DocumentReader.read sample_document) !! i = Some u ->
       exists paragraph,
         doc_paragraphs doc !! i = Some paragraph
         /\ let s := analyze_paragraph_structure paragraph in
            text s = (if nonblank (text u) then Docx.stored_text (text u)
                      else EmptyString)
            /\ is_bold s = nonblank (text u) && is_bold u
            /\ is_italic s = nonblank (text u) && is_italic u
            /\ has_image s = false
            /\ image_data s = None.
Proof.
  apply (X20_new_document_has_text_and_no_picture
           (DocumentReader.read sample_document)).
  reflexivity.
Defined.

(** ** From the reader to the writer *)

Lemma last_filter_In {A : Type} (P : A -> bool) (l : list A) (x : A) :
  last (List.filter P l) = Some x -> In x l /\ P x = true.
Proof.
  intros H. apply last_Some in H as [l' H].
  apply List.filter_In. rewrite H. apply in_or_app. right. by left.
Qed.

Lemma last_filter_unique {A : Type} (P : A -> bool) (l : list A) (x : A) :
  In x l -> P x = true ->
  (forall y, In y l -> P y = true -> y = x) ->
  last (List.filter P l) = Some x.
Proof.
  intros Hin HP Huniq.
  assert (In x (List.filter P l)) as Hf by (by apply List.filter_In).
  destruct (last (List.filter P l)) as [y|] eqn:Hl.
  - f_equal. apply last_filter_In in Hl as [Hy HPy]. by apply Huniq.
  - apply last_None in Hl. rewrite Hl in Hf. destruct Hf.
Qed.

Lemma In_zip_positions {A : Type} (l : list A) (j : nat) (x : A) :
  In (j, x) (zip (seq 0 (length l)) l) <-> l !! j = Some x.
Proof.
  rewrite <- list_elem_of_In, list_elem_of_lookup. split.
  - intros [k Hk]. apply lookup_zip_with_Some in Hk
      as (j' & x' & [= -> ->] & Hs & Hx).
    apply lookup_seq in Hs as [-> _]. exact Hx.
  - intros Hj. exists j. apply lookup_zip_with_Some. exists j, x.
    split; [reflexivity|]. split; [|exact Hj].
    apply lookup_seq. split; [reflexivity|]. by eapply lookup_lt_Some.
Qed.

Section ReaderToWriter.
Variable doc : Document.
Variable out : list Paragraph.
Hypothesis Hout : Forall2 same_but_text (paragraphs (DocumentReader.read doc)) out.

Lemma out_unit_origin (j : nat) (u : Paragraph) :
  out !! j = Some u ->
  exists i dp,
    doc_paragraphs doc !! i = Some dp /\ kept_by_reader dp = true
    /\ paragraphs (DocumentReader.read doc) !! j = Some (unit_read i dp)
    /\ same_but_text (unit_read i dp) u /\ index u = Some i.
Proof using Hout.
  intros Hu. destruct (Forall2_lookup_r _ _ _ _ _ Hout Hu) as (p & Hp & Hsame).
  pose proof Hp as Hin.
  apply list_elem_of_lookup_2, list_elem_of_In in Hin.
  apply (read_paragraphs_In (doc_paragraphs doc) 0 p) in Hin
    as (i & dp & Hi & Hk & ->).
  exists i, dp. repeat split; try done.
  unfold same_but_text in Hsame. by rewrite Hsame.
Qed.

Lemma unit_for_dropped (i : nat) (dp : DocxParagraph) :
  doc_paragraphs doc !! i = Some dp -> kept_by_reader dp = false ->
  unit_for out i = None.
Proof using Hout.
  intros Hi Hk. unfold unit_for.
  destruct (last _) as [[j u]|] eqn:Hl; [|reflexivity]. exfalso.
  apply last_filter_In in Hl as [Hin HP]. apply In_zip_positions in Hin.
  destruct (out_unit_origin j u Hin) as (i' & dp' & Hi' & Hk' & _ & _ & Hidx).
  cbn in HP. rewrite Hidx in HP. cbn in HP. apply Nat.eqb_eq in HP. subst i'.
  congruence.
Qed.

Lemma unit_for_kept (i : nat) (dp : DocxParagraph) :
  doc_paragraphs doc !! i = Some dp -> kept_by_reader dp = true ->
  exists u, unit_for out i = Some u /\ same_but_text (unit_read i dp) u.
Proof using Hout.
  intros Hi Hk.
  assert (In (unit_read i dp) (paragraphs (DocumentReader.read doc))) as Hin.
  { apply (read_paragraphs_In (doc_paragraphs doc) 0). by exists i, dp. }
  apply list_elem_of_In, list_elem_of_lookup in Hin as [j Hj].
  destruct (Forall2_lookup_l _ _ _ _ _ Hout Hj) as (u & Hu & Hsame).
  exists u. split; [|exact Hsame]. unfold unit_for.
  rewrite (last_filter_unique _ _ (j, u)); [reflexivity| | |].
  - by apply In_zip_positions.
  - cbn. unfold same_but_text in Hsame. rewrite Hsame. cbn.
    apply Nat.eqb_refl.
  - intros [j' u'] Hin' HP. apply In_zip_positions in Hin'.
    destruct (out_unit_origin j' u' Hin')
      as (i' & dp' & Hi' & Hk' & Hj' & _ & Hidx).
    cbn in HP. rewrite Hidx in HP. cbn in HP. apply Nat.eqb_eq in HP. subst i'.
    assert (j' = j) as ->.
    { destruct (Nat.lt_trichotomy j' j) as [Hlt|[->|Hlt]]; [|done|].
      - destruct (read_paragraphs_increasing _ 0 j' j _ _ Hlt Hj' Hj)
          as (i1 & i2 & H1 & H2 & ?). cbn in H1, H2. simplify_eq. lia.
      - destruct (read_paragraphs_increasing _ 0 j j' _ _ Hlt Hj Hj')
          as (i1 & i2 & H1 & H2 & ?). cbn in H1, H2. simplify_eq. lia. }
    congruence.
Qed.

End ReaderToWriter.

(** X21.  When the units handed to the writer are those the reader made
    of the document, with their texts possibly replaced, the update of
    that document changes every paragraph the reader kept with the unit
    made of that very paragraph, and leaves alone every paragraph the
    reader dropped. *)
Theorem X21_each_paragraph_gets_its_own_unit (doc : Document)
    (translated_content : Content) (i : nat) (paragraph : DocxParagraph) :
  Forall2 same_but_text (paragraphs (DocumentReader.read doc))
    (paragraphs translated_content) ->
  doc_paragraphs doc !! i = Some paragraph ->
  (kept_by_reader paragraph = false ->
   doc_paragraphs (_update_original_document translated_content doc) !! i
   = Some paragraph)
  /\ (kept_by_reader paragraph = true ->
      exists u,
        In u (paragraphs translated_content)
        /\ same_but_text (unit_read i paragraph) u
        /\ doc_paragraphs (_update_original_document translated_content doc) !! i
           = Some (_update_paragraph_text paragraph u)).
Proof.
  intros Hout Hi. rewrite update_original_lookup, Hi. cbn. split.
  - intros Hk. by rewrite (unit_for_dropped doc _ Hout i paragraph Hi Hk).
  - intros Hk.
    destruct (unit_for_kept doc _ Hout i paragraph Hi Hk) as (u & Hu & Hsame).
    exists u. rewrite Hu. split; [|done].
    unfold unit_for in Hu. destruct (last _) as [[j u']|] eqn:Hl; [|done].
    cbn in Hu. inversion Hu; subst.
    apply last_filter_In in Hl as [Hin _]. apply In_zip_positions in Hin.
    by apply list_elem_of_In, list_elem_of_lookup_2 with j.
Qed.

Lemma X21_witness :
  (kept_by_reader (paragraph_of [text_run "Three"]) = false ->
   doc_paragraphs
     (_update_original_document (DocumentReader.read document_with_gap)
        document_with_gap) !! 2
   = Some (paragraph_of [text_run "Three"]))
  /\ (kept_by_reader (paragraph_of [text_run "Three"]) = true ->
      exists u,
        In u (paragraphs (DocumentReader.read document_with_gap))
        /\ same_but_text (unit_read 2 (paragraph_of [text_run "Three"])) u
        /\ doc_paragraphs
             (_update_original_document (DocumentReader.read document_with_gap)
                document_with_gap) !! 2
           = Some (_update_paragraph_text (paragraph_of [text_run "Three"]) u)).
Proof.
  apply (X21_each_paragraph_gets_its_own_unit document_with_gap
           (DocumentReader.read document_with_gap) 2
           (paragraph_of [text_run "Three"])).
  - vm_compute. repeat constructor.
  - reflexivity.
Defined.

(** ** A whole run *)

Lemma getitem_Ok (config : gmap string value) (key : string) (v : value) :
  Config.getitem config key = Ok v <-> config !! key = Some v.
Proof.
  unfold Config.getitem. destruct (config !! key); split; congruence.
Qed.

Lemma writer_run_unfold (save : Document -> value -> result unit)
    (content : Content) (output_path : value) (original : option Document) :
  DocumentWriter.run save content output_path original
  = if writer_refuses original content then Raise ValueError
    else _ ← save (written_document original content) output_path;
         mret (written_document original content).
Proof.
  unfold DocumentWriter.run, writer_refuses, written_document.
  destruct original as [orig|].
  - by destruct (update_refused content orig).
  - by destruct (create_refused content).
Qed.

(** What a run that returns has done, step by step. *)
Lemma run_translation_inv (world : World) (config : gmap string value)
    (backend : Backend) (o : Outcome) :
  TranslationSystem.run_translation world config backend = Ok o ->
  exists lang input_doc output_doc doc translated_paragraphs sent,
    config !! "target_language" = Some lang
    /\ config !! "input_doc" = Some input_doc
    /\ config !! "output_doc" = Some output_doc
    /\ open_input world input_doc = Ok doc
    /\ process_paragraphs config backend (paragraphs (DocumentReader.read doc))
       = Ok (translated_paragraphs, sent)
    /\ writer_refuses (open_original world input_doc)
         (content_of doc translated_paragraphs) = false
    /\ save_document world
         (written_document (open_original world input_doc)
            (content_of doc translated_paragraphs)) output_doc = Ok tt
    /\ o = {| summary := summary_of doc translated_paragraphs output_doc lang;
              handed_to_writer := content_of doc translated_paragraphs;
              saved := written_document (open_original world input_doc)
                         (content_of doc translated_paragraphs);
              calls := sent |}.
Proof.
  unfold TranslationSystem.run_translation.
  destruct (Config.getitem config "target_language") as [lang|] eqn:Hlang;
    cbn; [|discriminate]. apply getitem_Ok in Hlang.
  unfold TranslationSystem._read_document.
  destruct (Config.getitem config "input_doc") as [inp|] eqn:Hinp;
    cbn; [|discriminate]. apply getitem_Ok in Hinp.
  destruct (open_input world inp) as [doc|] eqn:Hopen; cbn; [|discriminate].
  unfold TranslationSystem._translate_paragraphs.
  destruct (process_paragraphs config backend _) as [[tp sent]|] eqn:Hproc;
    cbn; [|discriminate].
  unfold TranslationSystem._write_document.
  destruct (Config.getitem config "output_doc") as [outp|] eqn:Houtp;
    cbn; [|discriminate]. apply getitem_Ok in Houtp.
  rewrite (proj2 (getitem_Ok config "input_doc" inp) Hinp). cbn.
  rewrite writer_run_unfold.
  change (TranslationSystem._create_translated_content tp _ _)
    with (content_of doc tp).
  destruct (writer_refuses (open_original world inp) (content_of doc tp))
    eqn:Hacc; cbn; [discriminate|].
  destruct (save_document world _ outp) as [[]|] eqn:Hsave; cbn;
    [|discriminate].
  unfold TranslationSystem._create_result_summary.
  rewrite (proj2 (getitem_Ok config "output_doc" outp) Houtp). cbn.
  rewrite (proj2 (getitem_Ok config "target_language" lang) Hlang). cbn.
  intros [= <-]. exists lang, inp, outp, doc, tp, sent. done.
Qed.

(** What makes a run return. *)
Lemma run_translation_ok (world : World) (config : gmap string value)
    (backend : Backend) (lang input_doc output_doc : value) (doc : Document)
    (translated_paragraphs : list Paragraph) (sent : list Task) :
  config !! "target_language" = Some lang ->
  config !! "input_doc" = Some input_doc ->
  config !! "output_doc" = Some output_doc ->
  open_input world input_doc = Ok doc ->
  process_paragraphs config backend (paragraphs (DocumentReader.read doc))
  = Ok (translated_paragraphs, sent) ->
  writer_refuses (open_original world input_doc)
    (content_of doc translated_paragraphs) = false ->
  save_document world
    (written_document (open_original world input_doc)
       (content_of doc translated_paragraphs)) output_doc = Ok tt ->
  TranslationSystem.run_translation world config backend
  = Ok {| summary := summary_of doc translated_paragraphs output_doc lang;
          handed_to_writer := content_of doc translated_paragraphs;
          saved := written_document (open_original world input_doc)
                     (content_of doc translated_paragraphs);
          calls := sent |}.
Proof.
  intros Hlang Hinp Houtp Hopen Hproc Hacc Hsave.
  unfold TranslationSystem.run_translation,
    TranslationSystem._read_document, TranslationSystem._translate_paragraphs,
    TranslationSystem._write_document, TranslationSystem._create_result_summary.
  rewrite !(proj2 (getitem_Ok _ _ _) Hlang), !(proj2 (getitem_Ok _ _ _) Hinp),
    !(proj2 (getitem_Ok _ _ _) Houtp).
  cbn [mbind result_bind]. rewrite Hopen. cbn [mbind result_bind mret result_ret].
  rewrite Hproc. cbn [mbind result_bind].
  rewrite writer_run_unfold.
  fold (content_of doc translated_paragraphs).
  rewrite Hacc, Hsave. reflexivity.
Qed.

Lemma tables_with_rows_count (f : nat -> nat)
    (l : list (list (list string))) :
  length (filter (fun t => table_data t <> [])
            (imap (fun i table => snapshot (f i) table) l))
  = length (filter (fun table => table <> []) l).
Proof.
  revert f. induction l as [|t l IH]; intros f; [reflexivity|].
  rewrite imap_cons.
  destruct (decide (t = [])) as [->|Hne].
  - rewrite !filter_cons_False by (cbn; tauto). apply (IH (f ∘ S)).
  - rewrite !filter_cons_True by done. cbn. f_equal. apply (IH (f ∘ S)).
Qed.

(** ** The texts the library accepts *)

Lemma accepted_cons (c : ascii) (s : string) :
  accepted (String c s) <-> Docx.accepts_char c = true /\ accepted s.
Proof.
  unfold accepted. cbn [Docx.accepts]. split.
  - apply andb_prop.
  - intros [-> ->]. reflexivity.
Qed.

Lemma accepted_app (a b : string) :
  accepted (a +:+ b) <-> accepted a /\ accepted b.
Proof.
  induction a as [|c a IH]; [by split; [|intros [_ H]]|].
  rewrite append_cons, !accepted_cons, IH. tauto.
Qed.

Lemma accepted_lstrip (s : string) : accepted s -> accepted (lstrip s).
Proof.
  induction s as [|c s IH]; [done|]. cbn [lstrip]. intros H.
  destruct (isspace c); [|done]. apply IH. by apply accepted_cons in H as [_ H].
Qed.

Lemma accepted_rstrip (s : string) : accepted s -> accepted (rstrip s).
Proof.
  induction s as [|c s IH]; [done|]. rewrite rstrip_cons.
  intros [Hc Hs]%accepted_cons. specialize (IH Hs).
  destruct (rstrip s) as [|d r].
  - destruct (isspace c); [done|]. by apply accepted_cons.
  - by apply accepted_cons.
Qed.

Lemma accepted_strip (s : string) : accepted s -> accepted (strip s).
Proof. intros H. by apply accepted_rstrip, accepted_lstrip. Qed.

Lemma accepted_slice_from (n : nat) (s : string) :
  accepted s -> accepted (slice_from n s).
Proof.
  revert s. induction n as [|n IH]; intros s H; [by destruct s|].
  destruct s as [|c s]; [done|]. cbn [slice_from]. apply IH.
  by apply accepted_cons in H as [_ H].
Qed.

Lemma accepted_split_lines (s : string) :
  accepted s -> Forall accepted (split_lines s).
Proof.
  induction s as [|c s IH]; [by repeat constructor|].
  intros [Hc Hs]%accepted_cons. specialize (IH Hs). cbn [split_lines].
  destruct (Ascii.eqb c "010"); [by constructor|].
  destruct (split_lines s) as [|l ls].
  - repeat constructor. by apply accepted_cons.
  - inversion IH as [|? ? Hl Hls]; subst.
    constructor; [by apply accepted_cons|done].
Qed.

Lemma accepted_join (sep : string) (ls : list string) :
  accepted sep -> Forall accepted ls -> accepted (join sep ls).
Proof.
  intros Hsep. unfold join. induction 1 as [|x ls Hx Hls IH]; [done|].
  cbn [String.concat]. destruct ls as [|y ls]; [done|].
  apply accepted_app. split; [done|]. apply accepted_app. by split.
Qed.

Lemma accepted_skip_digits (s : string) : accepted s -> accepted (skip_digits s).
Proof.
  induction s as [|c s IH]; [done|]. cbn [skip_digits]. intros H.
  destruct (isdigit c); [|done]. apply IH. by apply accepted_cons in H as [_ H].
Qed.

Lemma accepted_re_sub_marker (line : string) :
  accepted line -> accepted (re_sub_marker line).
Proof.
  unfold re_sub_marker, after_marker. intros Hline.
  destruct line as [|c s]; [done|]. destruct (isdigit c); [|done].
  pose proof Hline as H.
  apply accepted_cons in H as [_ H]. apply accepted_skip_digits in H.
  destruct (skip_digits s) as [|d rest]; [done|].
  destruct (Ascii.eqb_spec d ".") as [->|Hd].
  - apply accepted_lstrip. by apply accepted_cons in H as [_ H].
  - assert (forall (A : Type) (x y : A),
              match d with "."%char => x | _ => y end = y) as Hm.
    { intros A x y.
      destruct d as [[] [] [] [] [] [] [] []]; try reflexivity. done. }
    by rewrite Hm.
Qed.

Lemma accepted_remove_prefix (prefixes : list string) (text0 : string) :
  accepted text0 -> accepted (remove_prefix prefixes text0).
Proof.
  intros H. induction prefixes as [|prefix rest IH]; [done|].
  cbn [remove_prefix]. destruct (startswith _ _); [|done].
  by apply accepted_strip, accepted_slice_from.
Qed.

Lemma accepted_clean_line (cleaned_lines : list string) (line0 : string) :
  Forall accepted cleaned_lines -> accepted line0 ->
  Forall accepted (clean_line cleaned_lines line0).
Proof.
  intros Hl H. unfold clean_line.
  destruct (existsb _ _); [done|]. destruct (startswith _ _); [done|].
  destruct (_ && _); [|done].
  apply Forall_app. split; [done|]. repeat constructor. by apply accepted_strip.
Qed.

Lemma accepted_fold_clean (lines cleaned_lines : list string) :
  Forall accepted cleaned_lines -> Forall accepted lines ->
  Forall accepted (fold_left clean_line lines cleaned_lines).
Proof.
  intros Hc Hl. revert cleaned_lines Hc.
  induction Hl as [|l ls Hl _ IH]; intros cleaned_lines Hc; [done|].
  cbn [fold_left]. by apply IH, accepted_clean_line.
Qed.

Lemma accepted_clean_translation_result (result_text : string) :
  accepted result_text -> accepted (clean_translation_result result_text).
Proof.
  intros H. unfold clean_translation_result.
  apply accepted_strip, accepted_join; [done|].
  apply accepted_fold_clean; [done|].
  by apply accepted_split_lines, accepted_remove_prefix, accepted_strip.
Qed.

Lemma accepted_parse_line (st : list string * string) (line0 : string) :
  Forall accepted st.1 -> accepted st.2 -> accepted line0 ->
  Forall accepted (parse_line st line0).1 /\ accepted (parse_line st line0).2.
Proof.
  destruct st as [items cur]. cbn [fst snd]. intros Hi Hc Hl.
  pose proof (accepted_strip _ Hl) as Hs. unfold parse_line.
  destruct (re_match_marker _).
  - cbn [fst snd]. split; [|by apply accepted_re_sub_marker].
    destruct (truthy cur); [|done].
    apply Forall_app. split; [done|]. repeat constructor.
    by apply accepted_strip.
  - destruct (truthy cur); [|done]. cbn [fst snd]. split; [done|].
    destruct (truthy _); [|done].
    apply accepted_app. split; [done|]. by apply accepted_app.
Qed.

Lemma accepted_fold_parse (lines : list string) (st : list string * string) :
  Forall accepted lines -> Forall accepted st.1 -> accepted st.2 ->
  Forall accepted (fold_left parse_line lines st).1
  /\ accepted (fold_left parse_line lines st).2.
Proof.
  intros Hl. revert st. induction Hl as [|l ls Hl _ IH]; intros st Hi Hc;
    [done|].
  cbn [fold_left].
  destruct (accepted_parse_line st l Hi Hc Hl) as [Hi' Hc']. by apply IH.
Qed.

Lemma accepted_parse_items (cleaned_result : string) :
  accepted cleaned_result -> Forall accepted (parse_items cleaned_result).
Proof.
  intros H. unfold parse_items, parse_lines.
  destruct (accepted_fold_parse (split_lines cleaned_result) ([], EmptyString))
    as [Hi Hc]; [by apply accepted_split_lines|done|done|].
  destruct (fold_left parse_line _ _) as [items cur]. cbn [fst snd] in Hi, Hc.
  destruct (truthy cur); [|done].
  apply Forall_app. split; [done|]. repeat constructor. by apply accepted_strip.
Qed.

Lemma accepted_align_from (items batch_texts : list string) (k : nat) :
  Forall accepted items -> Forall accepted batch_texts ->
  Forall accepted (align_from items k batch_texts).
Proof.
  intros Hi Hb. revert k. induction Hb as [|o rest Ho _ IH]; intros k;
    [done|].
  cbn [align_from]. destruct (truthy _); [|by constructor].
  destruct (items !! k) as [t|] eqn:Hk; [|by constructor].
  constructor; [|done]. by apply (Forall_lookup_1 _ _ _ _ Hi Hk).
Qed.

Lemma accepted_translate_batch (config : gmap string value)
    (backend : Backend) (texts ts : list string) (k : nat) (sent : list Task) :
  answers_accepted backend -> Forall accepted texts ->
  translate_batch config backend texts k = Ok (ts, sent) ->
  Forall accepted ts.
Proof.
  intros Hb Ht. unfold translate_batch.
  destruct (number_texts 1 texts); [by intros [= <- _]|].
  destruct (_create_translation_task config _) as [task|];
    cbn [mbind result_bind]; [|discriminate].
  destruct (backend k task) as [raw|] eqn:Hraw; [|by intros [= <- _]].
  intros [= <- _]. unfold _parse_translation_result,
    _align_translations_with_inputs.
  apply accepted_align_from; [|done].
  by apply accepted_parse_items, accepted_clean_translation_result,
    (Hb k task).
Qed.

Lemma accepted_with_texts (ps : list Paragraph) (ts : list string) :
  Forall accepted ts ->
  Forall (fun u => accepted (text u)) (zip_with with_text ps ts).
Proof.
  intros Ht. revert ps. induction Ht as [|t ts Ht _ IH]; intros [|p ps];
    try done.
  cbn [zip_with]. by constructor.
Qed.

Lemma accepted_batch_units (config : gmap string value) (backend : Backend)
    (bs : nat) (ps : list Paragraph) (k : nat) :
  answers_accepted backend ->
  Forall (fun u => accepted (text u)) ps ->
  Forall (fun u => accepted (text u)) (batch_units config backend bs ps k).
Proof.
  intros Hb Hps. unfold batch_units, batch_result.
  apply accepted_with_texts.
  destruct (translate_batch _ _ _ _) as [[ts sent]|] eqn:Htr; [|done].
  apply (accepted_translate_batch _ _ _ _ _ _ Hb) in Htr; [done|].
  apply Forall_fmap. unfold batch_at. by apply Forall_take, Forall_drop.
Qed.

Lemma accepted_units_read (doc : Document) :
  document_texts_accepted doc ->
  Forall (fun u => accepted (text u)) (paragraphs (DocumentReader.read doc)).
Proof.
  intros Hdoc. apply Forall_forall. intros u Hu.
  apply list_elem_of_In in Hu.
  change (paragraphs (DocumentReader.read doc))
    with (DocumentReader.read_paragraphs 0 (doc_paragraphs doc)) in Hu.
  apply read_paragraphs_In in Hu as (i & dp & Hi & _ & ->).
  unfold unit_read, analyze_paragraph_structure. cbn [with_index text].
  destruct (fold_analyze_frame (runs dp)
    {| text := Docx.paragraph_text dp; is_bold := false;
       is_italic := false; alignment := par_alignment dp;
       style_name := default "Normal" (par_style dp);
       has_numbering := false; indent_level := 0; has_image := false;
       image_data := None; index := None |}) as [-> _].
  cbn [text]. unfold Docx.paragraph_text.
  apply accepted_join; [done|]. apply Forall_fmap.
  by apply (Forall_lookup_1 _ _ _ _ Hdoc Hi).
Qed.

Lemma index_paragraphs_accepted (units : list Paragraph) (j : nat)
    (m : gmap nat Paragraph) :
  Forall (fun u => accepted (text u)) units ->
  map_Forall (fun _ u => accepted (text u)) m ->
  map_Forall (fun _ u => accepted (text u)) (index_paragraphs j units m).
Proof.
  intros Hu. revert j m. induction Hu as [|u units Hu _ IH]; intros j m Hm;
    [done|].
  cbn [index_paragraphs]. apply IH. by apply map_Forall_insert_2.
Qed.

Lemma update_not_refused (content : Content) (doc : Document) :
  Forall (fun u => accepted (text u)) (paragraphs content) ->
  update_refused content doc = false.
Proof.
  intros Hu. unfold update_refused.
  pose proof (index_paragraphs_accepted (paragraphs content) 0 ∅ Hu
                (map_Forall_empty _)) as Hm.
  induction (seq 0 (length (doc_paragraphs doc))) as [|i l IH]; [done|].
  cbn [existsb]. rewrite IH, orb_false_r.
  destruct (index_paragraphs 0 (paragraphs content) ∅ !! i) as [u|] eqn:Hi;
    [|done].
  unfold refused. rewrite (Hm i u Hi). apply andb_false_r.
Qed.

(** X22.  No exception of the backend makes a run fail, and no answer
    that holds only characters the library accepts: when the
    configuration names the target language, the input and the output,
    the batch size is positive, the delay is one [time.sleep] accepts, the
    input opens with texts the library accepts, the original exists and
    the document can be saved, the run returns its summary.  The summary
    counts the units of the document, the tables that have rows and the
    images of the catalog. *)
Theorem X22_backend_never_fails_a_run (world : World)
    (config : gmap string value) (backend : Backend)
    (lang input_doc output_doc : value) (doc original : Document) (z : Z) :
  config !! "target_language" = Some lang ->
  config !! "input_doc" = Some input_doc ->
  config !! "output_doc" = Some output_doc ->
  open_input world input_doc = Ok doc ->
  open_original world input_doc = Some original ->
  configured_batch_size config = Ok z ->
  (0 < z)%Z ->
  delay_accepted config ->
  document_texts_accepted doc ->
  answers_accepted backend ->
  (forall d, save_document world d output_doc = Ok tt) ->
  exists o,
    TranslationSystem.run_translation world config backend = Ok o
    /\ Forall2 same_but_text (paragraphs (DocumentReader.read doc))
         (paragraphs (handed_to_writer o))
    /\ total_paragraphs (summary o)
       = length (paragraphs (DocumentReader.read doc))
    /\ tables_translated (summary o)
       = length (filter (fun table => table <> []) (doc_tables doc))
    /\ images_preserved (summary o)
       = size (extract_images_from_document doc)
    /\ output_file (summary o) = output_doc
    /\ target_language (summary o) = lang.
Proof.
  intros Hlang Hinp Houtp Hopen Horig Hsize Hpos Hdelay Hdoc Hback Hsave.
  pose proof (process_paragraphs_batches config backend lang Hlang z Hsize Hpos
                (paragraphs (DocumentReader.read doc)) Hdelay) as Hproc.
  eexists. split.
  { apply (run_translation_ok world config backend lang input_doc output_doc doc
             _ _ Hlang Hinp Houtp Hopen Hproc); [|apply Hsave].
    rewrite Horig. apply update_not_refused.
    cbn [content_of paragraphs TranslationSystem._create_translated_content].
    apply Forall_concat, Forall_fmap, Forall_forall. intros k _.
    by apply accepted_batch_units, accepted_units_read. }
  cbn. split.
  { apply (all_units_same_but_text config backend lang Hlang); lia. }
  split; [reflexivity|]. split; [|done].
  apply (tables_with_rows_count (fun i => i)).
Qed.

Lemma X22_witness :
  exists o,
    TranslationSystem.run_translation sample_world Config.DEFAULT_CONFIG
      (fun _ _ => Some "nonsense") = Ok o
    /\ Forall2 same_but_text (paragraphs (DocumentReader.read sample_document))
         (paragraphs (handed_to_writer o))
    /\ total_paragraphs (summary o)
       = length (paragraphs (DocumentReader.read sample_document))
    /\ tables_translated (summary o)
       = length (filter (fun table => table <> []) (doc_tables sample_document))
    /\ images_preserved (summary o)
       = size (extract_images_from_document sample_document)
    /\ output_file (summary o) = VStr "translated_paper.docx"
    /\ target_language (summary o) = VStr "Hindi".
Proof.
  apply (X22_backend_never_fails_a_run sample_world Config.DEFAULT_CONFIG
           (fun _ _ => Some "nonsense") (VStr "Hindi") (VStr "input.docx")
           (VStr "translated_paper.docx") sample_document sample_document 2).
  - reflexivity.
  - reflexivity.
  - reflexivity.
  - reflexivity.
  - reflexivity.
  - reflexivity.
  - lia.
  - reflexivity.
  - repeat constructor.
  - intros k task raw [= <-]. reflexivity.
  - reflexivity.
Defined.

(** X23.  A run that updates the very document it read, with a positive
    batch size, saves a document with the same number of paragraphs, the
    same tables and the same related parts.  Every paragraph keeps its
    pictures; a paragraph the reader dropped is saved as it was, and a
    paragraph the reader kept is updated with the unit made of it, whose
    text the backend may have replaced. *)
Theorem X23_saved_document_keeps_what_is_not_text (world : World)
    (config : gmap string value) (backend : Backend) (o : Outcome)
    (input_doc : value) (doc : Document) (z : Z) :
  TranslationSystem.run_translation world config backend = Ok o ->
  config !! "input_doc" = Some input_doc ->
  open_input world input_doc = Ok doc ->
  open_original world input_doc = Some doc ->
  configured_batch_size config = Ok z ->
  (0 < z)%Z ->
  length (doc_paragraphs (saved o)) = length (doc_paragraphs doc)
  /\ doc_tables (saved o) = doc_tables doc
  /\ related_parts (saved o) = related_parts doc
  /\ forall (i : nat) (paragraph : DocxParagraph),
       doc_paragraphs doc !! i = Some paragraph ->
       exists paragraph',
         doc_paragraphs (saved o) !! i = Some paragraph'
         /\ keeps_pictures (runs paragraph) (runs paragraph')
         /\ (kept_by_reader paragraph = false -> paragraph' = paragraph)
         /\ (kept_by_reader paragraph = true ->
             exists u,
               same_but_text (unit_read i paragraph) u
               /\ paragraph' = _update_paragraph_text paragraph u).
Proof.
  intros Hrun Hinp Hopen Horig Hsize Hpos.
  apply run_translation_inv in Hrun
    as (lang & inp & outp & doc' & tp & sent & Hlang & Hinp' & _ & Hopen'
        & Hproc & _ & _ & ->).
  rewrite Hinp in Hinp'. inversion Hinp'; subst inp.
  rewrite Hopen in Hopen'. inversion Hopen'; subst doc'.
  rewrite Horig. cbn [saved written_document].
  apply (process_paragraphs_inv config backend lang Hlang z Hsize Hpos)
    in Hproc as [Htp _].
  assert (Forall2 same_but_text (paragraphs (DocumentReader.read doc))
            (paragraphs (content_of doc tp))) as Hout.
  { rewrite Htp. cbn [content_of paragraphs
                       TranslationSystem._create_translated_content].
    apply (all_units_same_but_text config backend lang Hlang); lia. }
  split; [cbn; apply length_imap|]. split; [reflexivity|].
  split; [reflexivity|].
  intros i paragraph Hi. rewrite update_original_lookup, Hi. cbn [fmap option_fmap option_map].
  eexists. split; [reflexivity|]. split; [|split].
  - destruct (unit_for _ i); [apply update_paragraph_keeps_pictures|].
    apply keeps_pictures_refl.
  - intros Hk. by rewrite (unit_for_dropped doc _ Hout i paragraph Hi Hk).
  - intros Hk.
    destruct (unit_for_kept doc _ Hout i paragraph Hi Hk) as (u & Hu & Hsame).
    exists u. by rewrite Hu.
Qed.

Lemma X23_witness :
  exists o,
    TranslationSystem.run_translation sample_world Config.DEFAULT_CONFIG
      (fun _ _ => Some "1. Bonjour") = Ok o
    /\ length (doc_paragraphs (saved o)) = length (doc_paragraphs sample_document)
    /\ doc_tables (saved o) = doc_tables sample_document
    /\ related_parts (saved o) = related_parts sample_document
    /\ forall (i : nat) (paragraph : DocxParagraph),
         doc_paragraphs sample_document !! i = Some paragraph ->
         exists paragraph',
           doc_paragraphs (saved o) !! i = Some paragraph'
           /\ keeps_pictures (runs paragraph) (runs paragraph')
           /\ (kept_by_reader paragraph = false -> paragraph' = paragraph)
           /\ (kept_by_reader paragraph = true ->
               exists u,
                 same_but_text (unit_read i paragraph) u
                 /\ paragraph' = _update_paragraph_text paragraph u).
Proof.
  eexists. split; [vm_compute; reflexivity|].
  apply (X23_saved_document_keeps_what_is_not_text sample_world
           Config.DEFAULT_CONFIG (fun _ _ => Some "1. Bonjour") _
           (VStr "input.docx") sample_document 2).
  - vm_compute. reflexivity.
  - reflexivity.
  - reflexivity.
  - reflexivity.
  - reflexivity.
  - lia.
Defined.

Lemma imap_unchanged {A : Type} (f : nat -> A -> A) (l : list A) :
  (forall i x, f i x = x) -> imap f l = l.
Proof.
  revert f. induction l as [|x l IH]; intros f Hf; [reflexivity|].
  rewrite imap_cons, Hf. f_equal. apply IH. intros i y. apply Hf.
Qed.

Lemma update_original_no_units (content : Content) (doc : Document) :
  paragraphs content = [] -> _update_original_document content doc = doc.
Proof.
  intros H. unfold _update_original_document. rewrite H. cbn [index_paragraphs].
  rewrite imap_unchanged; [by destruct doc|].
  intros i x. by rewrite lookup_empty.
Qed.

(** X24.  With a batch size that is not positive a run cannot return a
    true summary: with zero it does not return at all, and with a negative
    size it returns after translating nothing: the backend is not called, no
    unit is handed to the writer, the summary reports no paragraph
    translated, and the document saved is the original as it was. *)
Theorem X24_batch_size_not_positive (world : World)
    (config : gmap string value) (backend : Backend) (o : Outcome) (z : Z) :
  configured_batch_size config = Ok z ->
  (z <= 0)%Z ->
  TranslationSystem.run_translation world config backend = Ok o ->
  (z < 0)%Z
  /\ calls o = []
  /\ paragraphs (handed_to_writer o) = []
  /\ paragraphs_translated (summary o) = 0
  /\ forall input_doc original,
       config !! "input_doc" = Some input_doc ->
       open_original world input_doc = Some original ->
       saved o = original.
Proof.
  intros Hsize Hz Hrun.
  apply run_translation_inv in Hrun
    as (lang & inp & outp & doc & tp & sent & Hlang & Hinp & _ & Hopen
        & Hproc & _ & _ & ->).
  unfold process_paragraphs in Hproc. unfold configured_batch_size in Hsize.
  rewrite Hsize in Hproc. cbn [mbind result_bind] in Hproc.
  destruct (Z.eqb_spec z 0) as [->|Hnz]; [discriminate|].
  destruct (Z.ltb_spec z 0) as [Hneg|?]; [|lia].
  inversion Hproc; subst tp sent.
  split; [exact Hneg|]. split; [reflexivity|]. split; [reflexivity|].
  split; [reflexivity|].
  intros input_doc original Hinp' Horig. rewrite Hinp in Hinp'.
  inversion Hinp'; subst. cbn [saved]. rewrite Horig. cbn [written_document].
  by apply update_original_no_units.
Qed.

Lemma X24_witness :
  exists o,
    TranslationSystem.run_translation sample_world config_negative_batch_size
      (fun _ _ => Some "1. Bonjour") = Ok o
    /\ (-1 < 0)%Z
    /\ calls o = []
    /\ paragraphs (handed_to_writer o) = []
    /\ paragraphs_translated (summary o) = 0
    /\ forall input_doc original,
         config_negative_batch_size !! "input_doc" = Some input_doc ->
         open_original sample_world input_doc = Some original ->
         saved o = original.
Proof.
  eexists. split; [vm_compute; reflexivity|].
  apply (X24_batch_size_not_positive sample_world config_negative_batch_size
           (fun _ _ => Some "1. Bonjour") _ (-1)).
  - reflexivity.
  - lia.
  - vm_compute. reflexivity.
Defined.

(** ** The search for the input file *)

Lemma find_first {A : Type} (f : A -> bool) (l : list A) (x : A) :
  List.find f l = Some x ->
  exists pre post,
    l = pre ++ x :: post /\ f x = true /\ Forall (fun y => f y = false) pre.
Proof.
  induction l as [|y l IH]; cbn; [discriminate|].
  destruct (f y) eqn:Hy.
  - intros [= <-]. by exists [], l.
  - intros H. destruct (IH H) as (pre & post & -> & Hx & Hpre).
    exists (y :: pre), post. repeat split; [done|]. by constructor.
Qed.

Lemma find_nothing {A : Type} (f : A -> bool) (l : list A) :
  List.find f l = None -> Forall (fun y => f y = false) l.
Proof.
  intros H. apply Forall_forall. intros y Hy.
  apply (List.find_none f l H). by apply list_elem_of_In.
Qed.


Section Validation.
Variable fs : FileSystem.
Hypothesis path_round_trip :
  forall p : path fs, path_exists fs (Path fs (path_str fs p)) = path_exists fs p.
Variable config : gmap string value.

(** X26.  When the validation of the input file answers yes, the
    configuration it leaves names a file that exists, so the search of the
    reader returns that very path; every other key of the configuration is
    as it was. *)
Theorem X26_validated_input_is_found (config' : gmap string value) :
  ConfigFile.validate_input_file fs config = Ok (true, config') ->
  exists s,
    config' !! "input_doc" = Some (VStr s)
    /\ PathResolver.resolve_file_path fs s = Ok (Path fs s)
    /\ forall key, key <> "input_doc" -> config' !! key = config !! key.
Proof using path_round_trip.
  unfold ConfigFile.validate_input_file, Config.getitem.
  unfold mret, result_ret.
  destruct (config !! "input_doc") as [[s| |]|] eqn:Hin;
    cbn [mbind result_bind]; try discriminate.
  destruct (path_exists fs (Path fs s)) eqn:H0.
  - intros [= <-]. exists s. split; [exact Hin|]. split; [|done].
    unfold PathResolver.resolve_file_path. by rewrite H0.
  - destruct (List.find (path_exists fs) (ConfigFile.possible_locations fs s))
      as [loc|] eqn:Hf; [|discriminate].
    intros [= <-]. exists (path_str fs loc).
    split; [apply lookup_insert_eq|]. split.
    + apply find_first in Hf as (_ & _ & _ & Hloc & _).
      unfold PathResolver.resolve_file_path.
      by rewrite path_round_trip, Hloc.
    + intros key Hkey. by apply lookup_insert_ne.
Qed.

(** X27.  When the validation answers no, it leaves the configuration as
    it was, and the only file the search of the reader could still find
    is the one on the desktop under the configured name, which the
    validation does not try. *)
Theorem X27_validation_misses_only_the_desktop_name
    (config' : gmap string value) (s : string) :
  ConfigFile.validate_input_file fs config = Ok (false, config') ->
  config !! "input_doc" = Some (VStr s) ->
  config' = config
  /\ forall p,
       PathResolver.resolve_file_path fs s = Ok p -> p = desktop_join fs s.
Proof.
  unfold ConfigFile.validate_input_file, Config.getitem.
  unfold mret, result_ret.
  intros H Hin. rewrite Hin in H. cbn [mbind result_bind] in H.
  destruct (path_exists fs (Path fs s)) eqn:H0; [discriminate|].
  destruct (List.find (path_exists fs) (ConfigFile.possible_locations fs s))
    as [loc|] eqn:Hf; [discriminate|].
  inversion H; subst. split; [reflexivity|].
  apply find_nothing in Hf. unfold ConfigFile.possible_locations in Hf.
  apply Forall_cons in Hf as [H1 Hf]. apply Forall_cons in Hf as [H2 Hf].
  apply Forall_cons in Hf as [H3 _].
  intros p. unfold PathResolver.resolve_file_path. rewrite H0.
  cbn [PathResolver.possible_paths List.find]. rewrite H0, H3, H1.
  destruct (path_exists fs (desktop_join fs s)); [by intros [= <-]|].
  by rewrite H2.
Qed.

End Validation.

Lemma X26_witness :
  exists s,
    <[ "input_doc" := VStr "/work/input.docx" ]> config_paper !! "input_doc"
    = Some (VStr s)
    /\ PathResolver.resolve_file_path one_file_system s
       = Ok (Path one_file_system s)
    /\ forall key,
         key <> "input_doc" ->
         <[ "input_doc" := VStr "/work/input.docx" ]> config_paper !! key
         = config_paper !! key.
Proof.
  apply (X26_validated_input_is_found one_file_system).
  - reflexivity.
  - vm_compute. reflexivity.
Defined.

Lemma X27_witness :
  config_paper = config_paper
  /\ forall p,
       PathResolver.resolve_file_path desktop_file_system "paper.docx" = Ok p ->
       p = desktop_join desktop_file_system "paper.docx".
Proof.
  apply (X27_validation_misses_only_the_desktop_name desktop_file_system
           config_paper config_paper "paper.docx").
  - vm_compute. reflexivity.
  - reflexivity.
Defined.

(** ** A batch without target language *)

(** X28.  The fallback of a batch does not cover a missing target
    language: without the key, a batch that has a text to translate raises
    KeyError whatever the backend would do, and only a batch of blank
    texts is returned. *)
Theorem X28_missing_language_is_not_recovered (config : gmap string value)
    (backend : Backend) (batch_texts : list string) (batch_index : nat) :
  config !! "target_language" = None ->
  translate_batch config backend batch_texts batch_index
  = if count_nonblank batch_texts =? 0
    then Ok (batch_texts, [])
    else Raise (KeyError "target_language").
Proof.
  intros Hno. unfold translate_batch.
  rewrite (number_texts_entries batch_texts 1).
  fold (prompt_entries batch_texts).
  destruct (prompt_entries batch_texts) as [|e es] eqn:He.
  - apply prompt_entries_nil in He. by rewrite He.
  - assert (count_nonblank batch_texts <> 0) as Hn.
    { intros H0. apply prompt_entries_nil in H0. congruence. }
    apply Nat.eqb_neq in Hn. rewrite Hn.
    unfold _create_translation_task, Config.getitem. by rewrite Hno.
Qed.

Lemma X28_witness :
  translate_batch config_without_language failing_backend ["Hello"] 0
  = if count_nonblank ["Hello"] =? 0
    then Ok (["Hello"], [])
    else Raise (KeyError "target_language").
Proof.
  apply (X28_missing_language_is_not_recovered config_without_language
           failing_backend ["Hello"] 0).
  reflexivity.
Defined.

(** ** The cleaner *)

Lemma split_lines_no_newline (s : string) :
  Forall (fun l => has_newline l = false) (split_lines s).
Proof.
  induction s as [|c s IH]; [by repeat constructor|].
  cbn [split_lines]. destruct (Ascii.eqb c "010") eqn:Hc.
  - by constructor.
  - destruct (split_lines s) as [|l ls].
    + constructor; [|constructor]. cbn. by rewrite Hc.
    + apply Forall_cons in IH as [Hl Hls]. constructor; [|exact Hls].
      cbn. by rewrite Hc.
Qed.

Lemma lstrip_no_newline (s : string) :
  has_newline s = false -> has_newline (lstrip s) = false.
Proof.
  induction s as [|c s IH]; [done|]. cbn [lstrip has_newline].
  intros [Hc Hs]%orb_false_iff. destruct (isspace c); [by apply IH|].
  cbn. by rewrite Hc.
Qed.

Lemma rstrip_no_newline (s : string) :
  has_newline s = false -> has_newline (rstrip s) = false.
Proof.
  induction s as [|c s IH]; [done|]. cbn [has_newline].
  intros [Hc Hs]%orb_false_iff. rewrite rstrip_cons.
  destruct (rstrip s) as [|d r] eqn:E.
  - destruct (isspace c); [done|]. cbn. by rewrite Hc.
  - cbn [has_newline]. rewrite Hc. by apply IH.
Qed.

Lemma strip_no_newline (s : string) :
  has_newline s = false -> has_newline (strip s) = false.
Proof. intros H. by apply rstrip_no_newline, lstrip_no_newline. Qed.

Lemma clean_line_kept (cleaned_lines : list string) (line0 : string) :
  has_newline line0 = false ->
  Forall (fun l => kept_line l /\ has_newline l = false) cleaned_lines ->
  Forall (fun l => kept_line l /\ has_newline l = false)
    (clean_line cleaned_lines line0).
Proof.
  intros Hnl Hc. unfold clean_line.
  destruct (existsb _ METADATA_KEYWORDS) eqn:Hk; [exact Hc|].
  destruct (startswith (strip line0) "[Translation of item") eqn:Hb;
    [exact Hc|].
  destruct (truthy (strip line0)) eqn:Ht; [|exact Hc].
  destruct (startswith (strip line0) "#") eqn:Hh; [exact Hc|].
  cbn [andb negb]. apply Forall_app. split; [exact Hc|].
  constructor; [|constructor]. split; [|by apply strip_no_newline].
  repeat split; try done.
  apply strip_trimmed; [apply head_ok_strip|apply rstrip_strip].
Qed.

Lemma fold_clean_kept (lines cleaned_lines : list string) :
  Forall (fun l => has_newline l = false) lines ->
  Forall (fun l => kept_line l /\ has_newline l = false) cleaned_lines ->
  Forall (fun l => kept_line l /\ has_newline l = false)
    (fold_left clean_line lines cleaned_lines).
Proof.
  revert cleaned_lines. induction lines as [|l lines IH];
    intros cleaned_lines Hl Hc; [exact Hc|].
  apply Forall_cons in Hl as [Hl0 Hl]. cbn [fold_left].
  apply IH; [exact Hl|]. by apply clean_line_kept.
Qed.

Lemma split_lines_one (x : string) :
  has_newline x = false -> split_lines x = [x].
Proof.
  induction x as [|c x IH]; [done|]. cbn [has_newline split_lines].
  intros [Hc Hx]%orb_false_iff. by rewrite Hc, IH.
Qed.

Lemma split_lines_app (x rest : string) :
  has_newline x = false ->
  split_lines (x +:+ newline +:+ rest) = x :: split_lines rest.
Proof.
  induction x as [|c x IH]; [done|]. cbn [has_newline].
  intros [Hc Hx]%orb_false_iff. rewrite append_cons. cbn [split_lines].
  by rewrite Hc, IH.
Qed.

Lemma join_cons_cons (sep x y : string) (ys : list string) :
  join sep (x :: y :: ys) = x +:+ sep +:+ join sep (y :: ys).
Proof. reflexivity. Qed.

Lemma split_lines_join (ls : list string) :
  ls <> [] ->
  Forall (fun l => has_newline l = false) ls ->
  split_lines (join newline ls) = ls.
Proof.
  induction ls as [|x [|y ys] IH]; intros Hne Hnl; [done| |].
  - apply Forall_cons in Hnl as [Hx _]. by apply split_lines_one.
  - apply Forall_cons in Hnl as [Hx Hnl].
    rewrite join_cons_cons, split_lines_app by exact Hx.
    f_equal. by apply IH.
Qed.

Lemma kept_line_trimmed (l : string) :
  kept_line l -> truthy l = true /\ head_ok l /\ rstrip l = l.
Proof.
  intros (Ht & Hs & _). split; [exact Ht|].
  split; [rewrite <- Hs; apply head_ok_strip|].
  rewrite <- Hs at 2. rewrite <- Hs at 1. apply rstrip_strip.
Qed.

Lemma join_trimmed (ls : list string) :
  ls <> [] ->
  Forall kept_line ls ->
  truthy (join newline ls) = true
  /\ head_ok (join newline ls)
  /\ rstrip (join newline ls) = join newline ls.
Proof.
  induction ls as [|x [|y ys] IH]; intros Hne Hk; [done| |].
  - apply Forall_cons in Hk as [Hx _]. by apply kept_line_trimmed.
  - apply Forall_cons in Hk as [Hx Hk].
    destruct (kept_line_trimmed x Hx) as (Htx & Hhx & Hrx).
    destruct (IH ltac:(done) Hk) as (Ht & Hh & Hr).
    rewrite join_cons_cons. set (J := join newline (y :: ys)) in *.
    split; [by destruct x|]. split; [by destruct x|].
    assert (truthy (rstrip (newline +:+ J)) = true) as Hn.
    { rewrite rstrip_app by (by rewrite Hr). reflexivity. }
    rewrite rstrip_app by exact Hn.
    rewrite rstrip_app by (by rewrite Hr). by rewrite Hr.
Qed.

Lemma clean_body_lines (text : string) :
  clean_body text = EmptyString
  \/ Forall kept_line (split_lines (clean_body text)).
Proof.
  unfold clean_body.
  pose proof (fold_clean_kept (split_lines text) []
                (split_lines_no_newline text) (Forall_nil_2 _)) as H.
  destruct (fold_left clean_line (split_lines text) []) as [|l ls] eqn:E;
    [by left|].
  right. apply Forall_and in H as [Hk Hnl].
  destruct (join_trimmed (l :: ls) ltac:(done) Hk) as (_ & Hh & Hr).
  rewrite strip_trimmed by done.
  by rewrite split_lines_join.
Qed.

(** X29.  The cleaned result is empty, or each of its lines is a line the
    cleaner lets through: not empty, without blank at either end, not a
    comment, not a bracketed marker, and without metadata keyword in any
    letter case. *)
Theorem X29_cleaned_lines_are_kept_lines (result_text : string) :
  clean_translation_result result_text = EmptyString
  \/ Forall kept_line (split_lines (clean_translation_result result_text)).
Proof.
  apply (clean_body_lines (remove_prefix PREFIXES_TO_REMOVE (strip result_text))).
Qed.

Lemma lower_app (a b : string) : lower (a +:+ b) = lower a +:+ lower b.
Proof.
  induction a as [|c a IH]; [reflexivity|].
  rewrite append_cons. cbn [lower]. by rewrite append_cons, IH.
Qed.

Lemma lower_length (s : string) : String.length (lower s) = String.length s.
Proof. induction s as [|c s IH]; [reflexivity|]. cbn. by rewrite IH. Qed.

Lemma slice_from_app (s t : string) : slice_from (String.length s) (s +:+ t) = t.
Proof.
  induction s as [|c s IH]; [by destruct t|].
  rewrite append_cons. cbn. exact IH.
Qed.

Lemma prefix_app (a b : string) : String.prefix a (a +:+ b) = true.
Proof.
  induction a as [|c a IH]; [apply prefix_empty|].
  rewrite append_cons. cbn [String.prefix].
  by destruct (ascii_dec c c).
Qed.

Lemma prefix_differ (a b y : string) :
  differ a b = true -> String.prefix a (b +:+ y) = false.
Proof.
  revert b. induction a as [|c a IH]; intros [|d b]; cbn [differ]; try done.
  rewrite append_cons. cbn [String.prefix].
  destruct (Ascii.eqb_spec c d) as [->|Hne].
  - intros H. destruct (ascii_dec d d); [by apply IH|done].
  - intros _. by destruct (ascii_dec c d).
Qed.

(** X30.  When the trimmed response begins, in any letter case, with one
    of the known preambles, the cleaner drops exactly that preamble, trims
    what follows and cleans its lines; it does not look for a second
    preamble. *)
Theorem X30_preamble_is_dropped_once (result_text prefix s rest : string) :
  In prefix PREFIXES_TO_REMOVE ->
  lower s = lower prefix ->
  strip result_text = s +:+ rest ->
  clean_translation_result result_text = clean_body (strip rest).
Proof.
  intros Hin Hs Hstrip.
  change (clean_translation_result result_text)
    with (clean_body (remove_prefix PREFIXES_TO_REMOVE (strip result_text))).
  f_equal. rewrite Hstrip.
  assert (String.length prefix = String.length s) as Hlen
    by (by rewrite <- (lower_length s), Hs, lower_length).
  unfold PREFIXES_TO_REMOVE in *. cbn [remove_prefix]. unfold startswith.
  rewrite lower_app, Hs.
  cbn [In] in Hin.
  repeat (destruct Hin as [<-|Hin];
          [ repeat (rewrite prefix_differ by reflexivity; cbv iota);
            rewrite prefix_app; cbv iota;
            by rewrite Hlen, slice_from_app | ]).
  destruct Hin.
Qed.

Lemma X30_witness :
  clean_translation_result
    ("  HERE IS THE TRANSLATION: Result: 1. Bonjour  ")
  = clean_body (strip " Result: 1. Bonjour").
Proof.
  apply (X30_preamble_is_dropped_once
           "  HERE IS THE TRANSLATION: Result: 1. Bonjour  "
           "Here is the translation:" "HERE IS THE TRANSLATION:"
           " Result: 1. Bonjour").
  - vm_compute. tauto.
  - reflexivity.
  - reflexivity.
Defined.
